(** * HexBuzz asset generator: a shallow embedding of
      [tool/generate_sd_assets.py] and the properties of its batch pipeline.

    The script talks to three things outside itself: the Automatic1111 HTTP
    backend (through [requests]), the file system (through [pathlib] and
    [open]) and the optional [rembg] / [PIL] image libraries.  They are
    gathered in an [environment]; the script itself is written in a small
    state-and-exception monad over a [world] that records every request
    sent, every line printed and every file written. *)

From Stdlib Require Import ZArith QArith.
From stdpp Require Import gmap strings list.

Local Open Scope Z_scope.
Set Warnings "-register-all".

(** ** Data *)

Definition bytes : Type := list Byte.byte.

(** What [response.json()] returns. *)
Inductive json : Type :=
| JNull
| JBool (b : bool)
| JNum (n : Z)
| JStr (s : string)
| JArr (items : list json)
| JObj (members : list (string * json)).

(** The [payload] dict built by [generate_image]. *)
Record payload : Type := {
  req_prompt : string;
  req_negative_prompt : string;
  req_steps : Z;
  req_cfg_scale : Q;
  req_width : Z;
  req_height : Z;
  req_sampler_name : string;
  req_scheduler : string;
  req_batch_size : Z;
  req_n_iter : Z
}.

(** The [json=] argument of a [requests.post]. *)
Inductive body : Type :=
| OptionsBody (sd_model_checkpoint : string)
| Txt2imgBody (p : payload).

Inductive request : Type :=
| Get (url : string)
| Post (url : string) (data : body).

(** What the [requests] call comes back with: either the call itself raises
    (connection refused, timeout, ...) or a response object is returned,
    whatever its status code; [None] is a body that is not JSON. *)
Inductive reply : Type :=
| TransportError (detail : string)
| Reply (status_code : Z) (content : option json).

Inductive exn : Type :=
| RequestException (detail : string)
| HTTPError (status_code : Z)
| JSONDecodeError
| AttributeError
| TypeError
| KeyError (key : string)
| IndexError
| BinasciiError
| ValueError
| OSError (path : string)
| ImageError (detail : string).

(** A call returns a value or raises. *)
Inductive result (A : Type) : Type :=
| Ok (a : A)
| Raise (e : exn).
Arguments Ok {A} a.
Arguments Raise {A} e.

(** One constructor per [print] of the script, carrying the interpolated
    values of its f-string. *)
Inductive line : Type :=
| CheckingModel                               (* "Checking current model..." *)
| Switching (target : string)                 (* "Switching to {target_model}..." *)
| ModelSwitched                               (* "Model switched." *)
| AlreadyUsing (target : string)              (* "Already using {target_model}" *)
| Generating (i total : nat) (filename : string) (* "[{i}/{total}] Generating {filename}..." *)
| RemovingBackground                          (* "    Removing background..." *)
| RembgWarning                                (* "    Warning: rembg not available, ..." *)
| Saved (output_path : string)                (* "    Saved: {output_path}" *)
| Error (e : exn)                             (* "    ERROR: {e}" *)
| Complete (output_dir : string).             (* "Asset generation complete! Files saved to {OUTPUT_DIR}" *)

(** An entry of [ASSETS]: every key but the ones present is absent. *)
Record config : Type := {
  prompt : option string;
  negative : option string;
  width : option Z;
  height : option Z;
  remove_bg : option bool
}.

(** [SD_CONFIG]. *)
Record sd_settings : Type := {
  sd_steps : Z;
  sd_cfg_scale : Q;
  sd_width : Z;
  sd_height : Z;
  sd_sampler_name : string;
  sd_scheduler : string;
  sd_negative_prompt : string
}.

Definition API_URL : string := "http://localhost:7860".

Definition SD_CONFIG : sd_settings := {|
  sd_steps := 4;
  sd_cfg_scale := 2 # 1;
  sd_width := 512;
  sd_height := 512;
  sd_sampler_name := "DPM++ SDE";
  sd_scheduler := "Karras";
  sd_negative_prompt := "blurry, low quality, distorted, ugly, bad anatomy, text, watermark, signature, jpeg artifacts, noise"
|}.

(** [ASSETS], in insertion order. *)
Definition ASSETS : list (string * config) := [
  ("app_icon.png",
   {| prompt := Some "game app icon, golden honeycomb hexagonal pattern, glowing amber honey texture, single cute cartoon bee mascot, warm golden yellow orange gradient, glossy 3D style, mobile game icon, centered composition, high quality, professional game art, no text";
      negative := Some "text, letters, words, watermark, signature, multiple bees, realistic, photograph";
      width := None; height := None; remove_bg := None |});
  ("splash_background.png",
   {| prompt := Some "seamless tileable pattern, honeycomb hexagonal cells background, golden amber honey dripping texture, warm cream yellow gradient, soft glow, game UI background, vector style illustration, abstract geometric, high quality";
      negative := Some "text, character, bee, figure, watermark, asymmetric";
      width := None; height := None; remove_bg := None |});
  ("level_button.png",
   {| prompt := Some "single hexagonal game button icon, golden honeycomb cell, glossy honey texture, warm amber glow, 3D embossed style, game UI element, centered, isolated on transparent, clean edges, high quality mobile game art";
      negative := Some "text, numbers, multiple, pattern, background, watermark";
      width := None; height := None; remove_bg := None |});
  ("level_button_hover.png",
   {| prompt := Some "single hexagonal game button icon, bright glowing golden honeycomb cell, radiant honey amber, strong glow effect, 3D embossed style, game UI hover state, centered, isolated, luminous edges, high quality mobile game art";
      negative := Some "text, numbers, multiple, pattern, background, watermark";
      width := None; height := None; remove_bg := None |});
  ("lock_icon.png",
   {| prompt := Some "game lock icon, vintage brass padlock, honey amber tint, stylized cartoon lock, game UI element, centered, clean design, glossy finish, mobile game art style, isolated icon";
      negative := Some "text, key, chain, realistic, photograph, multiple, background";
      width := None; height := None; remove_bg := Some true |});
  ("star_filled.png",
   {| prompt := Some "golden star game icon, shining glossy gold star, warm honey amber glow, sparkles, game achievement star, 3D cartoon style, centered, isolated, mobile game UI, high quality vector style";
      negative := Some "text, multiple stars, background, realistic, dull";
      width := None; height := None; remove_bg := Some true |});
  ("star_empty.png",
   {| prompt := Some "empty star outline icon, silver grey star border, subtle shadow, game UI star placeholder, clean minimalist, centered, isolated, mobile game element, transparent center, outline only";
      negative := Some "text, filled, gold, yellow, multiple, background, solid";
      width := None; height := None; remove_bg := Some true |});
  ("victory_background.png",
   {| prompt := Some "celebration game victory screen background, golden light rays, honey drip decorations, warm amber gradient, confetti particles, festive game UI background, soft glow effect, high quality mobile game art";
      negative := Some "text, character, face, realistic, dark, sad";
      width := None; height := None; remove_bg := None |});
  ("trophy_icon.png",
   {| prompt := Some "golden trophy cup game icon, honey amber gold, glossy 3D cartoon style, small stars around, achievement reward icon, centered, isolated, mobile game UI element, warm glow";
      negative := Some "text, realistic, photograph, multiple, background, engraving";
      width := None; height := None; remove_bg := Some true |});
  ("hex_cell_unvisited.png",
   {| prompt := Some "single hexagonal game cell, clean light cream colored honeycomb, subtle texture, soft shadow, game puzzle piece, minimalist flat design, centered, isolated, mobile game UI";
      negative := Some "text, multiple, pattern, dark, visited mark, trail";
      width := None; height := None; remove_bg := None |});
  ("hex_cell_visited.png",
   {| prompt := Some "single hexagonal game cell, golden amber honey filled honeycomb, glowing warm yellow, translucent honey texture, game puzzle visited state, centered, isolated, mobile game UI element";
      negative := Some "text, multiple, pattern, empty, cream, white";
      width := None; height := None; remove_bg := None |});
  ("hex_cell_start.png",
   {| prompt := Some "single hexagonal game cell, green glowing honeycomb, emerald game start marker, bright green glow effect, game puzzle start point, centered, isolated, mobile game UI";
      negative := Some "text, multiple, pattern, red, yellow, bee";
      width := None; height := None; remove_bg := None |});
  ("hex_cell_end.png",
   {| prompt := Some "single hexagonal game cell, red glowing honeycomb, ruby game end goal marker, warm red glow effect, game puzzle destination point, centered, isolated, mobile game UI";
      negative := Some "text, multiple, pattern, green, yellow, bee";
      width := None; height := None; remove_bg := None |});
  ("button_play.png",
   {| prompt := Some "play button game icon, golden hexagonal button with play triangle, honey amber glossy finish, 3D embossed style, game UI start button, centered, isolated, mobile game art, warm glow";
      negative := Some "text, word play, multiple, background, realistic";
      width := None; height := None; remove_bg := Some true |});
  ("button_retry.png",
   {| prompt := Some "retry refresh button game icon, circular arrow on hexagonal golden button, honey amber finish, 3D game UI element, centered, isolated, mobile game art style, clean design";
      negative := Some "text, word, multiple, background, realistic";
      width := None; height := None; remove_bg := Some true |});
  ("button_next.png",
   {| prompt := Some "next arrow button game icon, right arrow on hexagonal golden button, honey amber glossy finish, 3D game UI navigation, centered, isolated, mobile game art, forward chevron";
      negative := Some "text, word next, multiple, background, realistic";
      width := None; height := None; remove_bg := Some true |});
  ("button_back.png",
   {| prompt := Some "back arrow button game icon, left arrow on hexagonal golden button, honey amber finish, 3D game UI navigation, centered, isolated, mobile game art, back chevron";
      negative := Some "text, word back, multiple, background, realistic";
      width := None; height := None; remove_bg := Some true |});
  ("button_menu.png",
   {| prompt := Some "menu grid button game icon, 3x3 grid dots on hexagonal golden button, honey amber finish, game UI menu icon, centered, isolated, mobile game art, level select icon";
      negative := Some "text, hamburger menu, lines, multiple, background";
      width := None; height := None; remove_bg := Some true |});
  ("header_banner.png",
   {| prompt := Some "game header banner background, horizontal honeycomb pattern, golden amber gradient, honey drip decorations, warm game UI header, seamless horizontal tile, high quality mobile game art";
      negative := Some "text, logo, character, vertical, square";
      width := Some 1024; height := Some 256; remove_bg := None |});
  ("bee_mascot.png",
   {| prompt := Some "cute cartoon bee character mascot, adorable happy bee, chibi style, golden yellow and black stripes, tiny wings, big eyes, game character, centered, isolated, mobile game art, kawaii style";
      negative := Some "realistic, scary, angry, multiple bees, background, text";
      width := None; height := None; remove_bg := Some true |});
  ("honey_drip.png",
   {| prompt := Some "golden honey drip decoration, translucent amber honey drop, glossy liquid texture, game UI decorative element, isolated, vertical dripping honey, high quality";
      negative := Some "text, background, solid, character, bee";
      width := None; height := None; remove_bg := Some true |});
  ("progress_fill.png",
   {| prompt := Some "seamless horizontal tile, golden honey gradient texture, glossy amber fill, game progress bar texture, smooth gradient, warm yellow orange, game UI element";
      negative := Some "text, pattern, hexagon, character, vertical";
      width := Some 512; height := Some 64; remove_bg := None |});
  ("icon_settings.png",
   {| prompt := Some "settings gear icon, golden brass gear cogwheel, honey amber tint, game UI settings button, 3D cartoon style, centered, isolated, mobile game art, clean design";
      negative := Some "text, multiple gears, background, realistic, rusty";
      width := None; height := None; remove_bg := Some true |});
  ("icon_sound_on.png",
   {| prompt := Some "sound speaker icon with waves, golden amber game UI icon, 3D cartoon style, audio on indicator, centered, isolated, mobile game art element, clean design";
      negative := Some "text, mute, x mark, background, realistic";
      width := None; height := None; remove_bg := Some true |});
  ("icon_sound_off.png",
   {| prompt := Some "muted speaker icon with X mark, golden amber game UI icon, 3D cartoon style, audio mute indicator, centered, isolated, mobile game art element";
      negative := Some "text, waves, sound on, background, realistic";
      width := None; height := None; remove_bg := Some true |});
  ("icon_info.png",
   {| prompt := Some "info help icon, golden circular i button, honey amber game UI icon, 3D cartoon style, information symbol, centered, isolated, mobile game art";
      negative := Some "text, question mark, background, realistic, multiple";
      width := None; height := None; remove_bg := Some true |});
  ("icon_checkmark.png",
   {| prompt := Some "checkmark tick icon, golden amber check symbol, game UI completion icon, 3D glossy style, success indicator, centered, isolated, mobile game art, green gold";
      negative := Some "text, x mark, cross, background, realistic";
      width := None; height := None; remove_bg := Some true |})
].

(** ** Python's operators on the values the script handles *)

(** [sub in s] on two [str]. *)
Fixpoint str_in (sub s : string) : bool :=
  String.prefix sub s ||
  match s with
  | EmptyString => false
  | String _ s' => str_in sub s'
  end.

(** [a or b] on two [str]: the empty string is the only falsy one. *)
Definition str_or (a b : string) : string :=
  match a with
  | EmptyString => b
  | _ => a
  end.

(** [d.get(key, default)] on an optional key. *)
Definition get {A : Type} (field : option A) (default : A) : A :=
  match field with
  | Some v => v
  | None => default
  end.

Definition lookup_key (key : string) (members : list (string * json)) : option json :=
  snd <$> List.find (fun kv => String.eqb (fst kv) key) members.

(** ** The monad: state passing with Python exceptions

    A computation takes the state it starts in and gives back what it
    returned or raised, with the state it left behind: the effects done
    before a [raise] stay done. *)

Definition M (W A : Type) : Type := W -> result A * W.

Definition ret {W A} (a : A) : M W A := fun w => (Ok a, w).

Definition raise {W A} (e : exn) : M W A := fun w => (Raise e, w).

Definition bind {W A B} (m : M W A) (k : A -> M W B) : M W B :=
  fun w =>
    match m w with
    | (Ok a, w') => k a w'
    | (Raise e, w') => (Raise e, w')
    end.

(** [try: m except Exception as e: h e] *)
Definition try_except {W A} (m : M W A) (h : exn -> M W A) : M W A :=
  fun w =>
    match m w with
    | (Ok a, w') => (Ok a, w')
    | (Raise e, w') => h e w'
    end.

Declare Scope py_scope.
Delimit Scope py_scope with py.
Notation "x <- m ;; k" := (bind m (fun x => k))
  (at level 100, m at next level, right associativity) : py_scope.
Notation "m ;;; k" := (bind m (fun _ => k))
  (at level 100, right associativity) : py_scope.
Local Open Scope py_scope.

(** ** The outside world *)

Record environment : Type := {
  backend_state : Type;
  (** the backend answers a request and moves to its next state *)
  serve : backend_state -> request -> reply * backend_state;
  (** [Path(__file__).parent.parent] *)
  project_root : string;
  (** the [/] of [pathlib] *)
  joinpath : string -> string -> string;
  (** whether [mkdir] / [open(_, "wb")] on a path goes through *)
  writable : string -> bool;
  (** [base64.b64decode] on a [str]: the bytes it returns, or the error it
      raises ([binascii.Error] on bad padding, a plain [ValueError] on a
      string that is not ASCII) *)
  b64decode : string -> result bytes;
  (** the outcome of [from rembg import remove] at import time *)
  REMBG_AVAILABLE : bool;
  image : Type;
  Image_open : bytes -> option image;
  remove_background : image -> option image;
  Image_save_png : image -> bytes
}.

Section Script.

Context (E : environment).

(** What a run can change and what it leaves behind to look at: the
    backend, the files and directories on disk, the requests sent so far
    and the lines printed so far. *)
Record world : Type := {
  backend : backend_state E;
  files : gmap string bytes;
  dirs : gset string;
  sent : list request;
  out : list line
}.

Local Abbreviation M := (M world).

Definition print (l : line) : M unit :=
  fun w => (Ok tt, {| backend := backend w; files := files w; dirs := dirs w;
                      sent := sent w; out := out w ++ [l] |}).

(** [requests.get] / [requests.post]: the request goes out, the backend
    moves on, and the call either raises or hands back the response. *)
Definition requests (r : request) : M (Z * option json) :=
  fun w =>
    let '(rep, b') := serve E (backend w) r in
    let w' := {| backend := b'; files := files w; dirs := dirs w;
                 sent := sent w ++ [r]; out := out w |} in
    match rep with
    | TransportError d => (Raise (RequestException d), w')
    | Reply st content => (Ok (st, content), w')
    end.

(** [response.raise_for_status()] *)
Definition raise_for_status (response : Z * option json) : M unit :=
  if (400 <=? fst response) && (fst response <? 600)
  then raise (HTTPError (fst response))
  else ret tt.

(** [response.json()] *)
Definition response_json (response : Z * option json) : M json :=
  match snd response with
  | Some j => ret j
  | None => raise JSONDecodeError
  end.

(** [j.get(key, default)]: only a dict has [.get]. *)
Definition json_get (j : json) (key : string) (default : json) : M json :=
  match j with
  | JObj members => ret (get (lookup_key key members) default)
  | _ => raise AttributeError
  end.

(** [j[key]] with a string key. *)
Definition json_item (j : json) (key : string) : M json :=
  match j with
  | JObj members =>
      match lookup_key key members with
      | Some v => ret v
      | None => raise (KeyError key)
      end
  | _ => raise TypeError
  end.

(** [j[0]] *)
Definition json_first (j : json) : M json :=
  match j with
  | JArr (x :: _) => ret x
  | JArr [] => raise IndexError
  | JStr (String c _) => ret (JStr (String c EmptyString))
  | JStr EmptyString => raise IndexError
  | JObj _ => raise (KeyError "0")
  | _ => raise TypeError
  end.

(** [target not in current], where [current] came out of the JSON reply. *)
Definition json_contains (target : string) (current : json) : M bool :=
  match current with
  | JStr s => ret (str_in target s)
  | JArr items =>
      ret (existsb (fun x => match x with JStr s => String.eqb s target | _ => false end) items)
  | JObj members => ret (existsb (fun kv => String.eqb (fst kv) target) members)
  | _ => raise TypeError
  end.

(** ** The script *)

Definition OUTPUT_DIR : string := joinpath E (joinpath E (project_root E) "assets") "images".

Definition target_model : string := "dreamshaperXL_lightningDPMSDE.safetensors".

Definition ensure_model : M unit :=
  print CheckingModel ;;;
  response <- requests (Get (API_URL +:+ "/sdapi/v1/options")) ;;
  options <- response_json response ;;
  current <- json_get options "sd_model_checkpoint" (JStr "") ;;
  found <- json_contains target_model current ;;
  if negb found then
    print (Switching target_model) ;;;
    requests (Post (API_URL +:+ "/sdapi/v1/options") (OptionsBody target_model)) ;;;
    print ModelSwitched
  else
    print (AlreadyUsing target_model).

Definition build_payload (prompt negative : string) (width height : Z) : payload := {|
  req_prompt := prompt;
  req_negative_prompt := str_or negative (sd_negative_prompt SD_CONFIG);
  req_steps := sd_steps SD_CONFIG;
  req_cfg_scale := sd_cfg_scale SD_CONFIG;
  req_width := width;
  req_height := height;
  req_sampler_name := sd_sampler_name SD_CONFIG;
  req_scheduler := sd_scheduler SD_CONFIG;
  req_batch_size := 1;
  req_n_iter := 1
|}.

(** [base64.b64decode(image_data)] *)
Definition base64_b64decode (image_data : json) : M bytes :=
  match image_data with
  | JStr s =>
      match b64decode E s with
      | Ok data => ret data
      | Raise e => raise e
      end
  | _ => raise TypeError
  end.

Definition generate_image (prompt negative : string) (width height : Z) : M bytes :=
  let payload := build_payload prompt negative width height in
  response <- requests (Post (API_URL +:+ "/sdapi/v1/txt2img") (Txt2imgBody payload)) ;;
  raise_for_status response ;;;
  result <- response_json response ;;
  images <- json_item result "images" ;;
  image_data <- json_first images ;;
  base64_b64decode image_data.

Definition apply_background_removal (image_data : bytes) : M bytes :=
  if negb (REMBG_AVAILABLE E) then
    print RembgWarning ;;;
    ret image_data
  else
    match Image_open E image_data with
    | None => raise (ImageError "Image.open")
    | Some input_image =>
        match remove_background E input_image with
        | None => raise (ImageError "remove_background")
        | Some output_image => ret (Image_save_png E output_image)
        end
    end.

(** [OUTPUT_DIR.mkdir(parents=True, exist_ok=True)] *)
Definition mkdir (path : string) : M unit :=
  fun w =>
    if writable E path
    then (Ok tt, {| backend := backend w; files := files w; dirs := {[path]} ∪ dirs w;
                    sent := sent w; out := out w |})
    else (Raise (OSError path), w).

(** [with open(output_path, "wb") as f: f.write(image_data)] *)
Definition write_file (output_path : string) (image_data : bytes) : M unit :=
  fun w =>
    if writable E output_path
    then (Ok tt, {| backend := backend w; files := <[output_path := image_data]> (files w);
                    dirs := dirs w; sent := sent w; out := out w |})
    else (Raise (OSError output_path), w).

(** [config["prompt"]] *)
Definition config_prompt (cfg : config) : M string :=
  match prompt cfg with
  | Some p => ret p
  | None => raise (KeyError "prompt")
  end.

(** The call [generate_image(prompt=config["prompt"], negative=negative,
    width=width, height=height)]: its arguments are evaluated first, so a
    missing prompt raises before anything is sent. *)
Definition generate_call (cfg : config) (width height : Z) (negative : string) : M bytes :=
  p <- config_prompt cfg ;;
  generate_image p negative width height.

(** The rest of the [try], once the picture is there: the optional
    background removal, the write and the ["Saved"] line. *)
Definition save (output_path : string) (remove_bg : bool) (image_data : bytes) : M unit :=
  image_data <- (if remove_bg then
                   print RemovingBackground ;;;
                   apply_background_removal image_data
                 else ret image_data) ;;
  write_file output_path image_data ;;;
  print (Saved output_path).

(** The body of the [try] of [generate_all_assets]. *)
Definition try_block (output_path : string) (cfg : config)
    (width height : Z) (negative : string) (remove_bg : bool) : M unit :=
  image_data <- generate_call cfg width height negative ;;
  save output_path remove_bg image_data.

(** One turn of the [for] loop of [generate_all_assets]. *)
Definition loop_body (total i : nat) (filename : string) (cfg : config) : M unit :=
  let output_path := joinpath E OUTPUT_DIR filename in
  print (Generating i total filename) ;;;
  let width := get (width cfg) (sd_width SD_CONFIG) in
  let height := get (height cfg) (sd_height SD_CONFIG) in
  let negative := get (negative cfg) (sd_negative_prompt SD_CONFIG) in
  let remove_bg := get (remove_bg cfg) false in
  try_except
    (try_block output_path cfg width height negative remove_bg)
    (fun e => print (Error e)).

(** [for i, (filename, config) in enumerate(ASSETS.items(), i): ...] *)
Fixpoint for_assets (total i : nat) (items : list (string * config)) : M unit :=
  match items with
  | [] => ret tt
  | (filename, cfg) :: rest =>
      loop_body total i filename cfg ;;;
      for_assets total (S i) rest
  end.

(** [generate_all_assets], with the module-level [ASSETS] dict passed in as
    the list of its items in insertion order. *)
Definition generate_all_assets (ASSETS : list (string * config)) : M unit :=
  mkdir OUTPUT_DIR ;;;
  ensure_model ;;;
  let total := length ASSETS in
  for_assets total 1 ASSETS ;;;
  print (Complete OUTPUT_DIR).

End Script.

Arguments backend {E} w.
Arguments files {E} w.
Arguments dirs {E} w.
Arguments sent {E} w.
Arguments out {E} w.
Arguments print {E} l w.
Arguments requests {E} r w.
Arguments mkdir {E} path w.
Arguments write_file {E} output_path image_data w.

(** ** Concrete environments, to run the script on *)

Definition start (E : environment) (b : backend_state E) : world E :=
  {| backend := b; files := ∅; dirs := ∅; sent := []; out := [] |}.

(** A backend whose state is the title of its active checkpoint.  It draws
    every prompt but ["y"], for which the connection drops; the picture it
    sends back is the prompt itself. *)
Definition demo_serve (active : string) (r : request) : reply * string :=
  match r with
  | Get _ => (Reply 200 (Some (JObj [("sd_model_checkpoint", JStr active)])), active)
  | Post _ (OptionsBody m) => (Reply 200 (Some JNull), m)
  | Post _ (Txt2imgBody p) =>
      if String.eqb (req_prompt p) "y"
      then (TransportError "Connection refused", active)
      else (Reply 200 (Some (JObj [("images", JArr [JStr (req_prompt p)])])), active)
  end.

Definition demo : environment := {|
  backend_state := string;
  serve := demo_serve;
  project_root := "/hex_buzz";
  joinpath := fun dir name => dir +:+ "/" +:+ name;
  writable := fun _ => true;
  b64decode := fun s => Ok (String.list_byte_of_string s);
  REMBG_AVAILABLE := false;
  image := bytes;
  Image_open := Some;
  remove_background := Some;
  Image_save_png := fun i => i
|}.

(** Nothing listens on port 7860. *)
Definition offline : environment := {|
  backend_state := unit;
  serve := fun _ _ => (TransportError "Connection refused", tt);
  project_root := "/hex_buzz";
  joinpath := fun dir name => dir +:+ "/" +:+ name;
  writable := fun _ => true;
  b64decode := fun s => Ok (String.list_byte_of_string s);
  REMBG_AVAILABLE := false;
  image := bytes;
  Image_open := Some;
  remove_background := Some;
  Image_save_png := fun i => i
|}.

(** A backend whose state is the answer it gives to the query on its
    options, and whose pictures depend on the prompt: an error status for
    ["busy"], a page that is not JSON for ["html"], an object without
    pictures for ["nokey"], an empty list for ["none"], and otherwise two
    pictures, the first of which is the prompt itself. *)
Definition studio_serve (options : option json) (r : request) : reply * option json :=
  match r with
  | Get _ => (Reply 200 options, options)
  | Post _ (OptionsBody m) =>
      (Reply 200 (Some JNull), Some (JObj [("sd_model_checkpoint", JStr m)]))
  | Post _ (Txt2imgBody p) =>
      (if String.eqb (req_prompt p) "busy" then
         Reply 503 (Some (JObj [("images", JArr [JStr "x"])]))
       else if String.eqb (req_prompt p) "html" then Reply 200 None
       else if String.eqb (req_prompt p) "nokey" then
         Reply 200 (Some (JObj [("detail", JStr "Not Found")]))
       else if String.eqb (req_prompt p) "none" then
         Reply 200 (Some (JObj [("images", JArr [])]))
       else Reply 200 (Some (JObj [("images", JArr [JStr (req_prompt p); JStr "second"])])),
       options)
  end.

(** A machine with [rembg]: a picture with no bytes cannot be opened, and
    removing the background turns the bytes around; its decoder refuses a
    string that is not ASCII. *)
Definition studio : environment := {|
  backend_state := option json;
  serve := studio_serve;
  project_root := "/hex_buzz";
  joinpath := fun dir name => dir +:+ "/" +:+ name;
  writable := fun _ => true;
  b64decode := fun s =>
    if forallb (fun b => (Byte.to_N b <? 128)%N) (String.list_byte_of_string s)
    then Ok (String.list_byte_of_string s)
    else Raise ValueError;
  REMBG_AVAILABLE := true;
  image := bytes;
  Image_open := fun data => match data with [] => None | _ => Some data end;
  remove_background := fun input => Some (rev input);
  Image_save_png := fun output => output
|}.

(** A backend that answers the guard with error statuses, 500 to its
    query and 503 to its switch, each with a JSON body that tells the
    error, and that draws every prompt. *)
Definition rejecting_serve (state : unit) (r : request) : reply * unit :=
  match r with
  | Get _ => (Reply 500 (Some (JObj [("detail", JStr "Internal Server Error")])), state)
  | Post _ (OptionsBody _) =>
      (Reply 503 (Some (JObj [("detail", JStr "Service Unavailable")])), state)
  | Post _ (Txt2imgBody p) =>
      (Reply 200 (Some (JObj [("images", JArr [JStr (req_prompt p)])])), state)
  end.

Definition rejecting : environment := {|
  backend_state := unit;
  serve := rejecting_serve;
  project_root := "/hex_buzz";
  joinpath := fun dir name => dir +:+ "/" +:+ name;
  writable := fun _ => true;
  b64decode := fun s => Ok (String.list_byte_of_string s);
  REMBG_AVAILABLE := false;
  image := bytes;
  Image_open := Some;
  remove_background := Some;
  Image_save_png := fun i => i
|}.

(** A machine on which nothing can be written. *)
Definition readonly : environment := {|
  backend_state := string;
  serve := demo_serve;
  project_root := "/hex_buzz";
  joinpath := fun dir name => dir +:+ "/" +:+ name;
  writable := fun _ => false;
  b64decode := fun s => Ok (String.list_byte_of_string s);
  REMBG_AVAILABLE := false;
  image := bytes;
  Image_open := Some;
  remove_background := Some;
  Image_save_png := fun i => i
|}.

Definition prompted (p : string) (flagged : option bool) : config :=
  {| prompt := Some p; negative := None; width := None; height := None;
     remove_bg := flagged |}.

Definition loaded : string := "dreamshaperXL_lightningDPMSDE.safetensors [fdbe56354b]".

(** Entries to run: one that is drawn, one for which the connection drops
    and that asks for background removal, an icon, one with a width and no
    height, and one with an empty prompt. *)
Definition asset_x : config :=
  {| prompt := Some "x"; negative := None; width := None; height := None; remove_bg := None |}.

Definition asset_y : config :=
  {| prompt := Some "y"; negative := None; width := None; height := None;
     remove_bg := Some true |}.

Definition icon : config :=
  {| prompt := Some "x"; negative := Some ""; width := None; height := None;
     remove_bg := Some true |}.

Definition wide : config :=
  {| prompt := Some "x"; negative := None; width := Some 1024; height := None;
     remove_bg := None |}.

Definition blank : config :=
  {| prompt := Some ""; negative := None; width := None; height := None; remove_bg := None |}.

Definition unnamed : config :=
  {| prompt := None; negative := None; width := None; height := None; remove_bg := None |}.

(** A world of [demo] that holds the picture of an asset from an earlier
    run. *)
Definition revisited : world demo :=
  Build_world demo loaded {["/hex_buzz/assets/images/old.png" := [Byte.x00]]} ∅ [] [].

(** The world of [demo] once the directory is made and the guard is through. *)
Definition guarded : world demo :=
  snd (bind (mkdir (OUTPUT_DIR demo)) (fun _ => ensure_model demo) (start demo loaded)).

(** ** Reading a run back from what it left behind *)

(** The file name a line announces, if it is the ["[i/total] Generating"]
    line that opens an asset's turn. *)
Definition announces (l : line) : option string :=
  match l with
  | Generating _ _ filename => Some filename
  | _ => None
  end.

(** The assets attempted, in the order of their opening lines. *)
Definition attempted (ls : list line) : list string := omap announces ls.

(** The failures reported: every ["ERROR: e"] line with the file name of the
    opening line it follows. *)
Fixpoint failures_from (current : string) (ls : list line) : list (string * exn) :=
  match ls with
  | [] => []
  | Generating _ _ filename :: ls' => failures_from filename ls'
  | Error e :: ls' => (current, e) :: failures_from current ls'
  | _ :: ls' => failures_from current ls'
  end.

Definition failures (ls : list line) : list (string * exn) := failures_from "" ls.

(** The lines of [ensure_model]. *)
Definition guard_line (l : line) : Prop :=
  match l with
  | CheckingModel | Switching _ | ModelSwitched | AlreadyUsing _ => True
  | _ => False
  end.

(** The closing line of a run. *)
Definition closing (l : line) : Prop :=
  match l with
  | Complete _ => True
  | _ => False
  end.

Definition is_txt2img (r : request) : Prop :=
  match r with
  | Post _ (Txt2imgBody _) => True
  | _ => False
  end.

(** A request that carries a negative prompt carries a non-empty one. *)
Definition carries_negative (r : request) : Prop :=
  match r with
  | Post _ (Txt2imgBody p) => req_negative_prompt p <> ""
  | _ => True
  end.

Definition txt2img_url : string := API_URL +:+ "/sdapi/v1/txt2img".

Definition options_url : string := API_URL +:+ "/sdapi/v1/options".

(** The payload an entry of the registry is sent with, when it has a
    prompt: the locals of the loop body handed to [generate_image]. *)
Definition resolve (cfg : config) : option payload :=
  match prompt cfg with
  | Some p =>
      Some (build_payload p (get (negative cfg) (sd_negative_prompt SD_CONFIG))
              (get (width cfg) (sd_width SD_CONFIG)) (get (height cfg) (sd_height SD_CONFIG)))
  | None => None
  end.

Definition txt2img (pl : payload) : request := Post txt2img_url (Txt2imgBody pl).

(** The requests a registry asks for, in registration order. *)
Definition requested (items : list (string * config)) : list request :=
  txt2img <$> omap (fun item => resolve (snd item)) items.

(** A generation request carries the settings of [SD_CONFIG] and one
    picture per call. *)
Definition fixed_parameters (r : request) : Prop :=
  match r with
  | Post _ (Txt2imgBody p) =>
      req_steps p = 4 /\ req_cfg_scale p = 2 # 1 /\
      req_sampler_name p = "DPM++ SDE" /\ req_scheduler p = "Karras" /\
      req_batch_size p = 1 /\ req_n_iter p = 1
  | _ => True
  end.

(** The ["[i/total]"] counters and file names of the opening lines. *)
Definition progress (ls : list line) : list (nat * nat * string) :=
  omap (fun l => match l with Generating i total f => Some (i, total, f) | _ => None end) ls.

(** The paths of the ["Saved"] lines and the errors of the ["ERROR"] lines. *)
Definition saved (ls : list line) : list string :=
  omap (fun l => match l with Saved path => Some path | _ => None end) ls.

Definition errors (ls : list line) : list exn :=
  omap (fun l => match l with Error e => Some e | _ => None end) ls.

Section Frames.

Context {E : environment}.

(** [w'] has the files of [w], but for paths in [S] that now hold
    something. *)
Definition writes_within (allowed : string -> Prop) : relation (world E) :=
  fun w w' => forall path,
    files w' !! path = files w !! path \/ (allowed path /\ is_Some (files w' !! path)).

(** [w'] is [w] after some more lines, all of them in [P]. *)
Definition emits (P : line -> Prop) : relation (world E) :=
  fun w w' => exists ls, out w' = out w ++ ls /\ Forall P ls.

(** [w'] is [w] after some more requests, all of them in [Q]. *)
Definition sends (Q : request -> Prop) : relation (world E) :=
  fun w w' => exists rs, sent w' = sent w ++ rs /\ Forall Q rs.

Definition same_files : relation (world E) :=
  fun w w' => files w' = files w.

(** [w'] has every file of [w], and every ["Saved"] line printed since
    names a file that is there. *)
Definition accounted : relation (world E) :=
  fun w w' =>
    (forall path, is_Some (files w !! path) -> is_Some (files w' !! path)) /\
    exists ls,
      out w' = out w ++ ls /\
      forall path, path ∈ saved ls -> is_Some (files w' !! path).

(** A computation that keeps [R] between the world it starts in and the
    world it leaves, whether it returns or raises. *)
Definition preserves (R : relation (world E)) {A} (m : M (world E) A) : Prop :=
  forall w, R w (snd (m w)).

End Frames.

(** * The Play Store uploader: [tool/deploy/deploy_play_store.py]

    The script drives the Android Publisher API through the client built
    by [get_service]: every [.execute()] is a call, answered by the API or
    raising.  Command-line parsing is left to [argparse]; [main] is taken
    from the parsed arguments on. *)

Module Deploy.

Definition PACKAGE_NAME : string := "blog.techvisual.hexbuzz".

(** An entry of ["releases"], and the [track_config] dict. *)
Record release : Type := {
  versionCodes : list string;
  status : string
}.

Record track_config : Type := {
  track : string;
  releases : list release
}.

(** The requests built on [service.edits()] and sent by [.execute()]. *)
Inductive api_call : Type :=
| EditsInsert (packageName : string)
| BundlesUpload (packageName : string) (editId : json) (media_body : string)
| TracksUpdate (packageName : string) (editId : json) (target : string) (body : track_config)
| EditsCommit (packageName : string) (editId : json)
| EditsDelete (packageName : string) (editId : json).

(** What unwinds the stack: an [Exception], which [except Exception]
    catches, or the [SystemExit] of [sys.exit], which it does not. *)
Inductive raised : Type :=
| Exception (e : exn)
| SystemExit (code : Z).

Inductive outcome (A : Type) : Type :=
| Return (a : A)
| Raised (r : raised).
Arguments Return {A} a.
Arguments Raised {A} r.

(** One constructor per [print] of the script. *)
Inductive line : Type :=
| StartingUpload (target : string)        (* "Starting upload to {track} track..." *)
| CreatedEdit (edit_id : json)            (* "Created edit: {edit_id}" *)
| UploadedBundle (version_code : json)    (* "Uploaded bundle version: {version_code}" *)
| AssignedTrack (target : string)         (* "Assigned to {track} track" *)
| EditCommitted                           (* "Edit committed successfully!" *)
| Deployed (version_code : json) (target : string) (* "Deployed version {version_code} to {track}" *)
| NoKeyFile                               (* "Error: No key file specified." *)
| KeyFileHint                             (* "Set GOOGLE_PLAY_KEY_FILE env var or use --key-file" *)
| KeyHowTo                                (* "To create a service account key:" *)
| KeyHowTo1                               (* "1. Go to Google Cloud Console > ..." *)
| KeyHowTo2                               (* "2. Create a service account" *)
| KeyHowTo3                               (* "3. Download JSON key" *)
| KeyHowTo4                               (* "4. In Play Console > Settings > ..." *)
| KeyFileNotFound (key_file : string)     (* "Error: Key file not found: {args.key_file}" *)
| AabNotFound (aab : string).             (* "Error: AAB file not found: {args.aab}" *)

(** The namespace [parse_args] returns; [key_file] is [None] when neither
    [--key-file] nor [GOOGLE_PLAY_KEY_FILE] is given. *)
Record args : Type := {
  aab : string;
  arg_track : string;
  key_file : option string
}.

Record environment : Type := {
  api_state : Type;
  (** the API answers a call, or the call raises, and the API moves on *)
  execute_call : api_state -> api_call -> result json * api_state;
  (** [MediaFileUpload(aab_path, ...)]: the error it raises, if any *)
  MediaFileUpload : string -> option exn;
  (** [str(version_code)] *)
  str : json -> string;
  (** [Path(p).exists()] *)
  path_exists : string -> bool;
  (** [Credentials.from_service_account_file] and [build]: the error
      they raise on a key file, if any *)
  load_service : string -> option exn
}.

Section Script.

Context (E : environment).

Record world : Type := {
  api : api_state E;
  calls : list api_call;
  printed : list line
}.

Definition D (A : Type) : Type := world -> outcome A * world.

Definition ret {A} (a : A) : D A := fun w => (Return a, w).

Definition raise {A} (r : raised) : D A := fun w => (Raised r, w).

Definition bind {A B} (m : D A) (k : A -> D B) : D B :=
  fun w =>
    match m w with
    | (Return a, w') => k a w'
    | (Raised r, w') => (Raised r, w')
    end.

(** [try: m except Exception as e: h e]; a [SystemExit] goes through. *)
Definition try_except {A} (m : D A) (h : exn -> D A) : D A :=
  fun w =>
    match m w with
    | (Raised (Exception e), w') => h e w'
    | other => other
    end.

Notation "x <- m ;; k" := (bind m (fun x => k))
  (at level 100, m at next level, right associativity).
Notation "m ;;; k" := (bind m (fun _ => k))
  (at level 100, right associativity).

Definition print (l : line) : D unit :=
  fun w => (Return tt, {| api := api w; calls := calls w; printed := printed w ++ [l] |}).

(** [request.execute()] *)
Definition execute (c : api_call) : D json :=
  fun w =>
    let '(answer, s) := execute_call E (api w) c in
    let w' := {| api := s; calls := calls w ++ [c]; printed := printed w |} in
    match answer with
    | Ok j => (Return j, w')
    | Raise e => (Raised (Exception e), w')
    end.

(** [j[key]] with a string key. *)
Definition item (j : json) (key : string) : D json :=
  match j with
  | JObj members =>
      match lookup_key key members with
      | Some v => ret v
      | None => raise (Exception (KeyError key))
      end
  | _ => raise (Exception TypeError)
  end.

Definition media_file_upload (aab_path : string) : D unit :=
  match MediaFileUpload E aab_path with
  | None => ret tt
  | Some e => raise (Exception e)
  end.

(** The body of the [try] of [upload_aab]. *)
Definition upload_steps (edit_id : json) (aab_path target : string) : D unit :=
  media_file_upload aab_path ;;;
  bundle <- execute (BundlesUpload PACKAGE_NAME edit_id aab_path) ;;
  version_code <- item bundle "versionCode" ;;
  print (UploadedBundle version_code) ;;;
  let track_config := {|
    track := target;
    releases := [ {| versionCodes := [str E version_code];
                     status := if String.eqb target "production"
                               then "completed" else "draft" |} ]
  |} in
  execute (TracksUpdate PACKAGE_NAME edit_id target track_config) ;;;
  print (AssignedTrack target) ;;;
  execute (EditsCommit PACKAGE_NAME edit_id) ;;;
  print EditCommitted ;;;
  print (Deployed version_code target).

(** Its [except Exception as e]: delete the edit, raise [e] again. *)
Definition discard_edit (edit_id : json) (e : exn) : D unit :=
  execute (EditsDelete PACKAGE_NAME edit_id) ;;;
  raise (Exception e).

Definition upload_aab (aab_path target : string) : D unit :=
  print (StartingUpload target) ;;;
  edit <- execute (EditsInsert PACKAGE_NAME) ;;
  edit_id <- item edit "id" ;;
  print (CreatedEdit edit_id) ;;;
  try_except (upload_steps edit_id aab_path target) (discard_edit edit_id).

Definition get_service (key : string) : D unit :=
  match load_service E key with
  | None => ret tt
  | Some e => raise (Exception e)
  end.

(** [sys.exit(code)] *)
Definition sys_exit {A} (code : Z) : D A := raise (SystemExit code).

(** [main], once [parse_args] has returned. *)
Definition main (a : args) : D unit :=
  match key_file a with
  | None | Some EmptyString =>
      print NoKeyFile ;;;
      print KeyFileHint ;;;
      print KeyHowTo ;;;
      print KeyHowTo1 ;;;
      print KeyHowTo2 ;;;
      print KeyHowTo3 ;;;
      print KeyHowTo4 ;;;
      sys_exit 1
  | Some key =>
      (if negb (path_exists E key) then
         print (KeyFileNotFound key) ;;; sys_exit 1
       else ret tt) ;;;
      (if negb (path_exists E (aab a)) then
         print (AabNotFound (aab a)) ;;; sys_exit 1
       else ret tt) ;;;
      get_service key ;;;
      upload_aab (aab a) (arg_track a)
  end.

End Script.

Arguments api {E} w.
Arguments calls {E} w.
Arguments printed {E} w.

Definition start (E : environment) (s : api_state E) : world E :=
  {| api := s; calls := []; printed := [] |}.

(** A call on a track carries one release, of the version it names, whose
    status goes by the track. *)
Definition release_for (target : string) (c : api_call) : Prop :=
  match c with
  | TracksUpdate package _ target' body =>
      package = PACKAGE_NAME /\ target' = target /\ track body = target /\
      exists version,
        releases body =
          [ {| versionCodes := [version];
               status := if String.eqb target "production" then "completed" else "draft" |} ]
  | _ => True
  end.

(** An API that opens edit ["e1"], takes bundles as version 7, and refuses
    every call named in its state. *)
Definition play_execute (refused : list string) (c : api_call) : result json * list string :=
  let name := match c with
              | EditsInsert _ => "insert"
              | BundlesUpload _ _ _ => "upload"
              | TracksUpdate _ _ _ _ => "update"
              | EditsCommit _ _ => "commit"
              | EditsDelete _ _ => "delete"
              end in
  (if existsb (String.eqb name) refused then Raise (RequestException name)
   else match c with
        | EditsInsert _ => Ok (JObj [("id", JStr "e1")])
        | BundlesUpload _ _ _ => Ok (JObj [("versionCode", JNum 7)])
        | _ => Ok (JObj [])
        end,
   refused).

Definition play : environment := {|
  api_state := list string;
  execute_call := play_execute;
  MediaFileUpload := fun _ => None;
  str := fun j => match j with JNum 7 => "7" | JStr s => s | _ => "" end;
  path_exists := fun p => negb (String.eqb p "missing");
  load_service := fun _ => None
|}.

End Deploy.

(** ** Substrings *)

Lemma prefix_app (a s : string) :
  String.prefix a s = true <-> exists r, s = a +:+ r.
Proof.
  revert s. induction a as [|c a IH]; intros s; simpl.
  - split; [intros _; exists s; reflexivity | by destruct s].
  - destruct s as [|c' s]; simpl.
    + split; [discriminate | intros [r Hr]; discriminate].
    + destruct (Ascii.ascii_dec c c') as [->|Hne].
      * rewrite IH. split; intros [r Hr]; exists r.
        -- simpl. by rewrite Hr.
        -- simpl in Hr. by injection Hr.
      * split; [discriminate | intros [r Hr]; simpl in Hr; injection Hr; congruence].
Qed.

(** [str_in] is Python's substring test. *)
Lemma str_in_spec (sub s : string) :
  str_in sub s = true <-> exists l r, s = l +:+ sub +:+ r.
Proof.
  induction s as [|c s IH].
  - change (str_in sub "") with (String.prefix sub "" || false).
    rewrite orb_false_r, prefix_app. split.
    + intros [r Hr]. by exists "", r.
    + intros (l & r & H). destruct l; [|discriminate]. by exists r.
  - change (str_in sub (String c s)) with (String.prefix sub (String c s) || str_in sub s).
    rewrite orb_true_iff, prefix_app, IH. split.
    + intros [[r Hr]|(l & r & Hlr)].
      * by exists "", r.
      * exists (String c l), r. simpl. by rewrite Hlr.
    + intros (l & r & H). destruct l as [|c' l].
      * left. by exists r.
      * right. exists l, r. simpl in H. by injection H.
Qed.

Lemma str_in_false (sub s : string) :
  str_in sub s = false <-> ~ exists l r, s = l +:+ sub +:+ r.
Proof. rewrite <- str_in_spec. by destruct (str_in sub s). Qed.

Section Properties.

Context (E : environment).

Implicit Types (w : world E) (cfg : config) (e : exn).

(** *** Relations kept by every step *)

#[local] Instance emits_preorder P : PreOrder (@emits E P).
Proof.
  split.
  - intros w. exists []. by rewrite app_nil_r.
  - intros w1 w2 w3 (l1 & H1 & F1) (l2 & H2 & F2). exists (l1 ++ l2).
    rewrite H2, H1, <- app_assoc. split; [done | by apply Forall_app].
Qed.

#[local] Instance sends_preorder Q : PreOrder (@sends E Q).
Proof.
  split.
  - intros w. exists []. by rewrite app_nil_r.
  - intros w1 w2 w3 (l1 & H1 & F1) (l2 & H2 & F2). exists (l1 ++ l2).
    rewrite H2, H1, <- app_assoc. split; [done | by apply Forall_app].
Qed.

#[local] Instance same_files_preorder : PreOrder (@same_files E).
Proof. split; [done | intros w1 w2 w3 H1 H2; unfold same_files in *; congruence]. Qed.

Section Preserves.

Context (R : relation (world E)) `{!PreOrder R}.

Lemma preserves_ret {A} (a : A) : preserves R (ret a).
Proof. intros w. reflexivity. Qed.

Lemma preserves_raise {A} e : preserves R (@raise _ A e).
Proof. intros w. reflexivity. Qed.

Lemma preserves_bind {A B} (m : M (world E) A) (k : A -> M (world E) B) :
  preserves R m -> (forall a, preserves R (k a)) -> preserves R (bind m k).
Proof.
  intros Hm Hk w. unfold bind. specialize (Hm w).
  destruct (m w) as [[a|e] w1]; simpl in *; [|done].
  etransitivity; [exact Hm | apply Hk].
Qed.

Lemma preserves_try_except {A} (m : M (world E) A) h :
  preserves R m -> (forall e, preserves R (h e)) -> preserves R (try_except m h).
Proof.
  intros Hm Hh w. unfold try_except. specialize (Hm w).
  destruct (m w) as [[a|e] w1]; simpl in *; [done|].
  etransitivity; [exact Hm | apply Hh].
Qed.

End Preserves.

Lemma emits_quiet P w w' : out w' = out w -> emits P w w'.
Proof. intros H. exists []. by rewrite app_nil_r. Qed.

Lemma sends_quiet Q w w' : sent w' = sent w -> sends Q w w'.
Proof. intros H. exists []. by rewrite app_nil_r. Qed.

Lemma emits_print P l : P l -> preserves (emits P) (@print E l).
Proof. intros Hl w. exists [l]. split; [done | by constructor]. Qed.

Lemma emits_requests P r : preserves (emits P) (@requests E r).
Proof.
  intros w. apply emits_quiet. unfold requests.
  by destruct (serve E (backend w) r) as [[d|st c] b].
Qed.

Lemma emits_mkdir P path : preserves (emits P) (@mkdir E path).
Proof. intros w. apply emits_quiet. unfold mkdir. by destruct (writable E path). Qed.

Lemma emits_write_file P path data : preserves (emits P) (@write_file E path data).
Proof. intros w. apply emits_quiet. unfold write_file. by destruct (writable E path). Qed.

Lemma sends_print Q l : preserves (sends Q) (@print E l).
Proof. intros w. by apply sends_quiet. Qed.

Lemma sends_requests (Q : request -> Prop) r : Q r -> preserves (sends Q) (@requests E r).
Proof.
  intros Hr w. exists [r]. split; [|by constructor].
  unfold requests. by destruct (serve E (backend w) r) as [[d|st c] b].
Qed.

Lemma sends_mkdir Q path : preserves (sends Q) (@mkdir E path).
Proof. intros w. apply sends_quiet. unfold mkdir. by destruct (writable E path). Qed.

Lemma sends_write_file Q path data : preserves (sends Q) (@write_file E path data).
Proof. intros w. apply sends_quiet. unfold write_file. by destruct (writable E path). Qed.

Lemma same_files_print l : preserves same_files (@print E l).
Proof. done. Qed.

Lemma same_files_requests r : preserves same_files (@requests E r).
Proof.
  intros w. unfold requests. by destruct (serve E (backend w) r) as [[d|st c] b].
Qed.

Lemma same_files_mkdir path : preserves same_files (@mkdir E path).
Proof. intros w. unfold mkdir. by destruct (writable E path). Qed.

(** Walks through a computation of the script, step by step, for any of
    the three relations. *)
Create HintDb frame.

Ltac frame :=
  repeat first
    [ solve [auto with frame nocore]
    | apply preserves_ret; apply _
    | apply preserves_raise; apply _
    | apply preserves_bind; [apply _| |intros ?]
    | apply preserves_try_except; [apply _| |intros ?]
    | apply emits_print; solve [simpl; auto]
    | apply emits_requests
    | apply emits_mkdir
    | apply emits_write_file
    | apply sends_print
    | apply sends_requests; solve [simpl; auto]
    | apply sends_mkdir
    | apply sends_write_file
    | apply same_files_print
    | apply same_files_requests
    | apply same_files_mkdir
    | match goal with
      | |- preserves _ (match ?x with _ => _ end) => destruct x
      end
    | progress unfold raise_for_status, response_json, json_get, json_item, json_first,
        json_contains, base64_b64decode, config_prompt, apply_background_removal ].

(** *** The guard *)

Lemma ensure_model_same_files : preserves same_files (ensure_model E).
Proof. unfold ensure_model. frame. Qed.

Lemma ensure_model_sends : preserves (sends (fun r => ~ is_txt2img r)) (ensure_model E).
Proof. unfold ensure_model. frame. Qed.

Lemma ensure_model_emits : preserves (emits guard_line) (ensure_model E).
Proof. unfold ensure_model. frame. Qed.

Lemma guard_lines_quiet ls : Forall guard_line ls -> attempted ls = [].
Proof.
  induction 1 as [|l ls Hl _ IH]; [done|].
  destruct l; try done; apply IH.
Qed.

(** When the query itself cannot be sent the guard raises the error of
    [requests.get]. *)
Lemma ensure_model_unreachable w d :
  fst (serve E (backend w) (Get options_url)) = TransportError d ->
  fst (ensure_model E w) = Raise (RequestException d).
Proof.
  intros H. unfold ensure_model, bind, requests. simpl. fold options_url.
  destruct (serve E (backend w) (Get options_url)) as [rep b]. simpl in H. by subst rep.
Qed.

(** The guard is optimistic: once the switch request has come back, with
    whatever status code and content, it prints ["Model switched."] and
    returns; it reads nothing back. *)
Lemma ensure_model_optimistic w st members current b st' content b' :
  serve E (backend w) (Get options_url) = (Reply st (Some (JObj members)), b) ->
  get (lookup_key "sd_model_checkpoint" members) (JStr "") = JStr current ->
  str_in target_model current = false ->
  serve E b (Post options_url (OptionsBody target_model)) = (Reply st' content, b') ->
  fst (ensure_model E w) = Ok tt /\
  out (snd (ensure_model E w)) =
    out w ++ [CheckingModel; Switching target_model; ModelSwitched].
Proof.
  intros Hget Hcur Hin Hpost.
  unfold ensure_model, bind, print, requests. simpl. fold options_url.
  rewrite Hget. simpl. rewrite Hcur. simpl. rewrite Hin. simpl.
  rewrite Hpost. simpl. by rewrite <- !app_assoc.
Qed.

(** *** One asset *)

Lemma str_or_nonempty a b : b <> "" -> str_or a b <> "".
Proof. by destruct a. Qed.

(** [generate_image] sends its one request, prints nothing and writes
    nothing, whatever the backend answers. *)
Lemma generate_image_world p n wd ht w :
  let w' := snd (generate_image E p n wd ht w) in
  sent w' = sent w ++ [Post txt2img_url (Txt2imgBody (build_payload p n wd ht))] /\
  files w' = files w /\ out w' = out w.
Proof.
  unfold generate_image, bind, requests, raise_for_status, response_json, json_item,
    json_first, base64_b64decode, ret, raise. fold txt2img_url.
  destruct (serve E (backend w) _) as [[d|st c] b]; simpl; [done|].
  repeat (case_match; simplify_eq/=; try done).
Qed.

Lemma generate_image_same_files p n wd ht : preserves same_files (generate_image E p n wd ht).
Proof. intros w. apply generate_image_world. Qed.

Lemma generate_image_emits P p n wd ht : preserves (emits P) (generate_image E p n wd ht).
Proof. intros w. apply emits_quiet, generate_image_world. Qed.

Lemma generate_image_sends p n wd ht :
  preserves (sends carries_negative) (generate_image E p n wd ht).
Proof.
  intros w. exists [Post txt2img_url (Txt2imgBody (build_payload p n wd ht))].
  split; [apply generate_image_world|]. constructor; [|constructor].
  simpl. by apply str_or_nonempty.
Qed.

#[local] Hint Resolve generate_image_emits generate_image_sends generate_image_same_files : frame.

(** Without [rembg] the picture comes back as it went in, with a warning. *)
Lemma apply_background_removal_unavailable image_data w :
  REMBG_AVAILABLE E = false ->
  apply_background_removal E image_data w = (Ok image_data, snd (print RembgWarning w)).
Proof. intros H. unfold apply_background_removal. by rewrite H. Qed.

Lemma apply_background_removal_same_files image_data :
  preserves same_files (apply_background_removal E image_data).
Proof. frame. Qed.

Lemma try_block_emits output_path cfg wd ht n rb :
  preserves (emits (fun l => announces l = None)) (try_block E output_path cfg wd ht n rb).
Proof. unfold try_block, generate_call, save. frame. Qed.

Lemma loop_body_sends total i filename cfg :
  preserves (sends carries_negative) (loop_body E total i filename cfg).
Proof. unfold loop_body, try_block, generate_call, save. frame. Qed.

Lemma loop_body_ok total i filename cfg w :
  fst (loop_body E total i filename cfg w) = Ok tt.
Proof.
  unfold loop_body, bind, try_except. simpl.
  by destruct (try_block _ _ _ _ _ _ _ _) as [[[]|e] w'].
Qed.

(** *** The loop *)

Lemma for_assets_ok total items : forall i w,
  fst (for_assets E total i items w) = Ok tt.
Proof.
  induction items as [|[filename cfg] rest IH]; intros i w; simpl; [done|].
  unfold bind. pose proof (loop_body_ok total i filename cfg w) as Hb.
  destruct (loop_body E total i filename cfg w) as [[[]|e] w']; simpl in Hb; [|done].
  apply IH.
Qed.


Lemma for_assets_preserves (R : relation (world E)) `{!PreOrder R} total items :
  (forall i filename cfg, preserves R (loop_body E total i filename cfg)) ->
  forall i, preserves R (for_assets E total i items).
Proof.
  intros Hb. induction items as [|[filename cfg] rest IH]; intros i; simpl.
  - by apply preserves_ret.
  - apply preserves_bind; [done | apply Hb | intros _; apply IH].
Qed.

Lemma attempted_app l1 l2 : attempted (l1 ++ l2) = attempted l1 ++ attempted l2.
Proof. apply omap_app. Qed.

Lemma attempted_quiet ls : Forall (fun l => announces l = None) ls -> attempted ls = [].
Proof.
  induction 1 as [|l ls Hl _ IH]; [done|].
  unfold attempted in *. simpl. by rewrite Hl.
Qed.

(** What one turn prints: its opening line, then lines that open no other
    asset, the last of which is the ["ERROR"] line when the [try] raised. *)
Lemma loop_body_out total i filename cfg w :
  exists during,
    out (snd (loop_body E total i filename cfg w)) =
      out w ++ Generating i total filename :: during /\
    attempted during = [] /\
    forall e,
      fst (try_block E (joinpath E (OUTPUT_DIR E) filename) cfg
             (get (width cfg) (sd_width SD_CONFIG)) (get (height cfg) (sd_height SD_CONFIG))
             (get (negative cfg) (sd_negative_prompt SD_CONFIG)) (get (remove_bg cfg) false)
             (snd (print (Generating i total filename) w))) = Raise e ->
      exists before, during = before ++ [Error e].
Proof.
  unfold loop_body, bind, try_except.
  set (w1 := snd (print (Generating i total filename) w)).
  change (print (Generating i total filename) w) with (Ok tt, w1).
  destruct (try_block_emits (joinpath E (OUTPUT_DIR E) filename) cfg
              (get (width cfg) (sd_width SD_CONFIG)) (get (height cfg) (sd_height SD_CONFIG))
              (get (negative cfg) (sd_negative_prompt SD_CONFIG)) (get (remove_bg cfg) false) w1)
    as (ls & Hls & Hquiet).
  destruct (try_block _ _ _ _ _ _ _ w1) as [[[]|e] w2]; simpl in *.
  - exists ls. rewrite Hls, <- app_assoc. split; [done|]. split; [by apply attempted_quiet | done].
  - exists (ls ++ [Error e]). rewrite Hls, <- !app_assoc. split; [done|]. split.
    + rewrite attempted_app, attempted_quiet by done. done.
    + intros e' [= <-]. by exists ls.
Qed.

Lemma for_assets_out total items : forall i w,
  exists ls,
    out (snd (for_assets E total i items w)) = out w ++ ls /\
    attempted ls = map fst items.
Proof.
  induction items as [|[filename cfg] rest IH]; intros i w; simpl.
  - exists []. by rewrite app_nil_r.
  - unfold bind. pose proof (loop_body_ok total i filename cfg w) as Hb.
    destruct (loop_body_out total i filename cfg w) as (during & Hout & Hquiet & _).
    destruct (loop_body E total i filename cfg w) as [[[]|e] w']; simpl in *; [|done].
    destruct (IH (S i) w') as (ls & Hls & Hatt).
    exists (Generating i total filename :: during ++ ls).
    rewrite Hls, Hout, <- app_assoc. split; [done|].
    change (attempted (Generating i total filename :: during ++ ls))
      with (filename :: attempted (during ++ ls)).
    by rewrite attempted_app, Hquiet, Hatt.
Qed.

(** C3. The guard sends the model-switch request exactly when the active
    model reported by the backend does not contain the required model's
    name as a substring; when it does, the query is the only request of the
    guard and nothing is changed on the backend. *)
Theorem ensure_model_switches_iff_not_substring w st members current :
  fst (serve E (backend w) (Get options_url)) = Reply st (Some (JObj members)) ->
  get (lookup_key "sd_model_checkpoint" members) (JStr "") = JStr current ->
  exists rest,
    sent (snd (ensure_model E w)) = sent w ++ Get options_url :: rest /\
    (rest = [Post options_url (OptionsBody target_model)] <->
       ~ exists l r, current = l +:+ target_model +:+ r) /\
    (rest = [] <-> exists l r, current = l +:+ target_model +:+ r).
Proof.
  intros Hserve Hcur.
  unfold ensure_model, bind, print, requests. simpl.
  fold options_url. destruct (serve E (backend w) (Get options_url)) as [rep b] eqn:Hs.
  simpl in Hserve. subst rep. simpl. rewrite Hcur. simpl.
  destruct (str_in target_model current) eqn:Hin; simpl.
  - exists []. split; [done|]. apply str_in_spec in Hin. split; [|done].
    split; [done | intros Hn; by destruct Hn].
  - destruct (serve E b (Post options_url (OptionsBody target_model))) as [rep' b'].
    exists [Post options_url (OptionsBody target_model)].
    apply str_in_false in Hin.
    split; [|split; [done | split; [done | intros H; by destruct Hin]]].
    destruct rep'; simpl; by rewrite <- app_assoc.
Qed.

(** *** The request of one asset *)

Lemma sends_nothing w w' : sends (fun _ => False) w w' -> sent w' = sent w.
Proof.
  intros (rs & H & F). destruct rs as [|r rs]; [by rewrite app_nil_r in H|].
  by apply Forall_cons in F as [[] _].
Qed.

Lemma save_sends output_path rb image_data :
  preserves (sends (fun _ => False)) (save E output_path rb image_data).
Proof. unfold save. frame. Qed.

(** What the [try] and its handler amount to, by the outcome of the call
    to [generate_image]. *)
Lemma loop_body_unfold total i filename cfg w :
  let output_path := joinpath E (OUTPUT_DIR E) filename in
  let w1 := snd (print (Generating i total filename) w) in
  let call := generate_call E cfg (get (width cfg) (sd_width SD_CONFIG))
                (get (height cfg) (sd_height SD_CONFIG))
                (get (negative cfg) (sd_negative_prompt SD_CONFIG)) w1 in
  loop_body E total i filename cfg w =
  match fst call with
  | Raise e => print (Error e) (snd call)
  | Ok image_data =>
      try_except (save E output_path (get (remove_bg cfg) false) image_data)
        (fun e => print (Error e)) (snd call)
  end.
Proof.
  intros output_path w1 call. unfold loop_body, try_block, bind, try_except.
  change (print (Generating i total filename) w) with (Ok tt, w1).
  clearbody w1. cbv iota beta. subst call.
  destruct (generate_call E cfg _ _ _ w1) as [[d|e] w2]; simpl; [|done].
  by destruct (save E _ _ d w2) as [[[]|e] w3].
Qed.

(** A turn whose asset has a prompt sends exactly one request: the
    [txt2img] call with the payload built from the asset's entry. *)
Lemma loop_body_request total i filename cfg w p :
  prompt cfg = Some p ->
  sent (snd (loop_body E total i filename cfg w)) =
    sent w ++ [Post txt2img_url (Txt2imgBody
      (build_payload p (get (negative cfg) (sd_negative_prompt SD_CONFIG))
         (get (width cfg) (sd_width SD_CONFIG)) (get (height cfg) (sd_height SD_CONFIG))))].
Proof.
  intros Hp. rewrite loop_body_unfold.
  unfold generate_call, config_prompt, bind. rewrite Hp.
  set (w1 := snd (print (Generating i total filename) w)).
  change (ret p w1) with (Ok p, w1).
  destruct (generate_image_world p (get (negative cfg) (sd_negative_prompt SD_CONFIG))
              (get (width cfg) (sd_width SD_CONFIG)) (get (height cfg) (sd_height SD_CONFIG)) w1)
    as (Hsent & _ & _).
  destruct (generate_image E p _ _ _ w1) as [[d|e] w2]; simpl in *; [|done].
  unfold try_except.
  pose proof (sends_nothing _ _ (save_sends (joinpath E (OUTPUT_DIR E) filename)
                                   (get (remove_bg cfg) false) d w2)) as Hsave.
  destruct (save E _ _ d w2) as [[[]|e] w3]; simpl in *; congruence.
Qed.

(** A turn whose asset has no prompt sends nothing and writes nothing: the
    [KeyError] of [config["prompt"]] is caught and printed. *)
Lemma loop_body_no_prompt total i filename cfg w :
  prompt cfg = None ->
  loop_body E total i filename cfg w =
    (Ok tt, snd (print (Error (KeyError "prompt")) (snd (print (Generating i total filename) w)))).
Proof.
  intros Hp. rewrite loop_body_unfold.
  unfold generate_call, config_prompt, bind. by rewrite Hp.
Qed.

(** C1 (as amended). Width and height are resolved one by one: the request
    carries the asset's width when it has one and the default width
    otherwise, and the same for the height, whatever the other dimension
    does.  So both overrides are used when both are there, the default
    pair when neither is, and an override next to a default when only one
    is. *)
Theorem dimensions_resolved_independently total i filename cfg w p :
  prompt cfg = Some p ->
  exists pl,
    sent (snd (loop_body E total i filename cfg w)) =
      sent w ++ [Post txt2img_url (Txt2imgBody pl)] /\
    req_width pl = match width cfg with Some x => x | None => sd_width SD_CONFIG end /\
    req_height pl = match height cfg with Some y => y | None => sd_height SD_CONFIG end.
Proof.
  intros Hp. eexists. split; [by apply loop_body_request|]. done.
Qed.

(** C5 (as amended). The prompt is passed on unchecked: when the entry has
    one, empty or not, the turn sends one request whose prompt is that
    string; when the entry has none, the turn sends no request, writes no
    file and reports [KeyError('prompt')] for that asset only. *)
Theorem prompt_sent_unchecked total i filename cfg w :
  (forall p, prompt cfg = Some p ->
     exists pl,
       sent (snd (loop_body E total i filename cfg w)) =
         sent w ++ [Post txt2img_url (Txt2imgBody pl)] /\
       req_prompt pl = p) /\
  (prompt cfg = None ->
     let w' := snd (loop_body E total i filename cfg w) in
     fst (loop_body E total i filename cfg w) = Ok tt /\
     sent w' = sent w /\ files w' = files w /\
     out w' = out w ++ [Generating i total filename; Error (KeyError "prompt")]).
Proof.
  split.
  - intros p Hp. eexists. split; [by apply loop_body_request|]. done.
  - intros Hp. rewrite loop_body_no_prompt by done. simpl.
    by rewrite <- app_assoc.
Qed.

(** C6. The negative prompt of the request is the asset's own when it has
    a non-empty one, and the global negative prompt when it has none or an
    empty one. *)
Theorem negative_prompt_resolution total i filename cfg w p :
  prompt cfg = Some p ->
  exists pl,
    sent (snd (loop_body E total i filename cfg w)) =
      sent w ++ [Post txt2img_url (Txt2imgBody pl)] /\
    (forall n, negative cfg = Some n -> n <> "" -> req_negative_prompt pl = n) /\
    (negative cfg = None \/ negative cfg = Some "" ->
       req_negative_prompt pl = sd_negative_prompt SD_CONFIG).
Proof.
  intros Hp. eexists. split; [by apply loop_body_request|].
  split.
  - intros n Hn Hne. rewrite Hn. simpl. by destruct n.
  - intros [Hn|Hn]; by rewrite Hn.
Qed.

(** C10. Every request a run sends to the backend that carries a negative
    prompt carries a non-empty one: an empty override gives way to the
    global negative prompt, which is not empty. *)
Theorem negative_prompt_never_empty ASSETS w :
  sd_negative_prompt SD_CONFIG <> "" /\
  (forall p wd ht,
     req_negative_prompt (build_payload p "" wd ht) = sd_negative_prompt SD_CONFIG) /\
  exists rs,
    sent (snd (generate_all_assets E ASSETS w)) = sent w ++ rs /\
    Forall carries_negative rs.
Proof.
  split; [done|]. split; [done|].
  assert (preserves (sends carries_negative) (generate_all_assets E ASSETS)) as H; [|apply H].
  unfold generate_all_assets, ensure_model.
  pose proof (for_assets_preserves (sends carries_negative) (length ASSETS) ASSETS
                (loop_body_sends (length ASSETS)) 1%nat) as Hloop.
  frame.
Qed.

(** *** Files *)

Lemma generate_call_same_files cfg wd ht n : preserves same_files (generate_call E cfg wd ht n).
Proof. unfold generate_call. frame. Qed.

Lemma generate_call_quiet cfg wd ht n w : out (snd (generate_call E cfg wd ht n w)) = out w.
Proof.
  unfold generate_call, config_prompt, bind. destruct (prompt cfg) as [p|]; [|done].
  change (ret p w) with (Ok p, w).
  destruct (generate_image_world p n wd ht w) as (_ & _ & Hout).
  by destruct (generate_image E p n wd ht w) as [[d|e] w2].
Qed.

(** The files after the second half of a turn: as before, or with the
    outcome of the optional background removal written at the asset's
    path. *)
Lemma save_files output_path rb image_data w :
  let w' := snd (try_except (save E output_path rb image_data) (fun e => print (Error e)) w) in
  files w' = files w \/
  exists processed w2,
    fst ((if rb then apply_background_removal E image_data else ret image_data) w2)
      = Ok processed /\
    files w' = <[output_path := processed]> (files w).
Proof.
  unfold save, try_except, bind.
  destruct rb.
  - change (print RemovingBackground w) with (Ok tt, snd (print RemovingBackground w)).
    cbv iota beta. set (w1 := snd (print RemovingBackground w)).
    pose proof (apply_background_removal_same_files image_data w1) as Hf.
    destruct (apply_background_removal E image_data w1) as [[d|e] w2] eqn:Hrm; simpl in Hf.
    + unfold write_file. destruct (writable E output_path); simpl; [|left; by rewrite Hf].
      right. exists d, w1. rewrite Hrm. split; [done|]. by rewrite Hf.
    + left. simpl. by rewrite Hf.
  - change (ret image_data w) with (Ok image_data, w). cbv iota beta.
    unfold write_file. destruct (writable E output_path); simpl; [|by left].
    right. by exists image_data, w.
Qed.

(** C9. A turn whose call to [generate_image] fails writes no file.  A
    turn whose call succeeds, for an asset whose background removal only
    degrades, writes the picture as generated.  And whatever happens, the
    only change a turn makes to the files is to write, at the asset's path,
    what generation followed by the optional post-processing returned. *)
Theorem written_only_after_generation total i filename cfg w :
  let output_path := joinpath E (OUTPUT_DIR E) filename in
  let call := generate_call E cfg (get (width cfg) (sd_width SD_CONFIG))
                (get (height cfg) (sd_height SD_CONFIG))
                (get (negative cfg) (sd_negative_prompt SD_CONFIG))
                (snd (print (Generating i total filename) w)) in
  let w' := snd (loop_body E total i filename cfg w) in
  (forall e, fst call = Raise e ->
     files w' = files w /\ forall path, Saved path ∉ drop (length (out w)) (out w')) /\
  (forall image_data,
     fst call = Ok image_data -> REMBG_AVAILABLE E = false ->
     writable E output_path = true ->
     files w' = <[output_path := image_data]> (files w)) /\
  (files w' = files w \/
   exists image_data processed w2,
     fst call = Ok image_data /\
     fst ((if get (remove_bg cfg) false
           then apply_background_removal E image_data else ret image_data) w2)
       = Ok processed /\
     files w' = <[output_path := processed]> (files w)).
Proof.
  intros output_path call w'. subst w'. rewrite loop_body_unfold.
  fold output_path. fold call.
  pose proof (generate_call_same_files cfg (get (width cfg) (sd_width SD_CONFIG))
                (get (height cfg) (sd_height SD_CONFIG))
                (get (negative cfg) (sd_negative_prompt SD_CONFIG))
                (snd (print (Generating i total filename) w))) as Hf.
  pose proof (generate_call_quiet cfg (get (width cfg) (sd_width SD_CONFIG))
                (get (height cfg) (sd_height SD_CONFIG))
                (get (negative cfg) (sd_negative_prompt SD_CONFIG))
                (snd (print (Generating i total filename) w))) as Hq.
  fold call in Hf, Hq. unfold same_files in Hf. simpl in Hf, Hq.
  destruct call as [[d|e] w2]; simpl in *.
  - split; [done|]. split.
    + intros ? [= <-] Hrembg Hw. unfold try_except, save, bind.
      destruct (get (remove_bg cfg) false).
      * change (print RemovingBackground w2) with (Ok tt, snd (print RemovingBackground w2)).
        cbv iota beta. rewrite apply_background_removal_unavailable by done.
        unfold write_file. rewrite Hw. simpl. by rewrite Hf.
      * change (ret d w2) with (Ok d, w2). cbv iota beta.
        unfold write_file. rewrite Hw. simpl. by rewrite Hf.
    + destruct (save_files output_path (get (remove_bg cfg) false) d w2)
        as [Hsame|(processed & w3 & Hp & Hw)].
      * left. by rewrite Hsame.
      * right. exists d, processed, w3. rewrite Hw, Hf. done.
  - split; [|split; [done | by left]].
    intros ? [= <-]. split; [done|]. intros path.
    rewrite Hq, <- app_assoc, drop_app_length. intros Hin.
    apply list_elem_of_In in Hin. by destruct Hin as [?|[?|[]]].
Qed.

(** C7. Without [rembg], [apply_background_removal] returns the bytes it
    was given, for every input; and an asset flagged [remove_bg] whose
    picture was generated and whose path can be written is saved with
    exactly those bytes, its turn printing the warning and the ["Saved"]
    line and no ["ERROR"] line. *)
Theorem rembg_unavailable_keeps_asset :
  REMBG_AVAILABLE E = false ->
  (forall image_data w,
     fst (apply_background_removal E image_data w) = Ok image_data) /\
  (forall total i filename cfg w image_data,
     let output_path := joinpath E (OUTPUT_DIR E) filename in
     let call := generate_call E cfg (get (width cfg) (sd_width SD_CONFIG))
                   (get (height cfg) (sd_height SD_CONFIG))
                   (get (negative cfg) (sd_negative_prompt SD_CONFIG))
                   (snd (print (Generating i total filename) w)) in
     let w' := snd (loop_body E total i filename cfg w) in
     remove_bg cfg = Some true ->
     fst call = Ok image_data ->
     writable E output_path = true ->
     files w' !! output_path = Some image_data /\
     out w' = out w ++ [Generating i total filename; RemovingBackground;
                        RembgWarning; Saved output_path]).
Proof.
  intros Hrembg. split.
  - intros image_data w. by rewrite apply_background_removal_unavailable.
  - intros total i filename cfg w image_data output_path call w' Hflag Hcall Hw.
    subst w'. rewrite loop_body_unfold. fold output_path. fold call.
    pose proof (generate_call_quiet cfg (get (width cfg) (sd_width SD_CONFIG))
                  (get (height cfg) (sd_height SD_CONFIG))
                  (get (negative cfg) (sd_negative_prompt SD_CONFIG))
                  (snd (print (Generating i total filename) w))) as Hq.
    fold call in Hq. simpl in Hq.
    destruct call as [[d|e] w2]; simpl in *; [|done]. injection Hcall as ->.
    rewrite Hflag. unfold try_except, save, bind. simpl.
    rewrite apply_background_removal_unavailable by done.
    unfold write_file. rewrite Hw. simpl. split.
    + apply lookup_insert_eq.
    + rewrite Hq, <- !app_assoc. done.
Qed.

(** *** The whole run *)

(** The run is the directory and the guard first, then the loop and the
    closing line if both went through. *)
Lemma generate_all_assets_unfold ASSETS w :
  generate_all_assets E ASSETS w =
  match bind (mkdir (OUTPUT_DIR E)) (fun _ => ensure_model E) w with
  | (Ok _, w0) =>
      bind (for_assets E (length ASSETS) 1 ASSETS) (fun _ => print (Complete (OUTPUT_DIR E))) w0
  | (Raise e, w0) => (Raise e, w0)
  end.
Proof.
  unfold generate_all_assets, bind.
  destruct (mkdir (OUTPUT_DIR E) w) as [[[]|e] w1]; [|done].
  by destruct (ensure_model E w1) as [[[]|e] w2].
Qed.

(** X25. When [ensure_model] raises, because [requests] could not
    complete the query or the switch or because the answer to the query
    cannot be used, the run stops there with that error: no asset is
    attempted, no [txt2img] request is sent and no file is written.  When
    it is the connection for the query that fails, the error is the one of
    [requests]. *)
Theorem guard_failure_aborts_run ASSETS w e :
  fst (mkdir (OUTPUT_DIR E) w) = Ok tt ->
  fst (ensure_model E (snd (mkdir (OUTPUT_DIR E) w))) = Raise e ->
  let w' := snd (generate_all_assets E ASSETS w) in
  fst (generate_all_assets E ASSETS w) = Raise e /\
  files w' = files w /\
  (exists rs, sent w' = sent w ++ rs /\ Forall (fun r => ~ is_txt2img r) rs) /\
  (exists ls, out w' = out w ++ ls /\ Forall guard_line ls /\ attempted ls = []) /\
  (forall d, fst (serve E (backend w) (Get options_url)) = TransportError d ->
     e = RequestException d).
Proof.
  intros Hmk Hguard w'. subst w'. rewrite generate_all_assets_unfold. unfold bind.
  pose proof (same_files_mkdir (OUTPUT_DIR E) w) as Hf1.
  pose proof (sends_mkdir (fun r => ~ is_txt2img r) (OUTPUT_DIR E) w) as Hs1.
  pose proof (emits_mkdir guard_line (OUTPUT_DIR E) w) as Ho1.
  assert (backend (snd (mkdir (OUTPUT_DIR E) w)) = backend w) as Hb.
  { unfold mkdir. by destruct (writable E (OUTPUT_DIR E)). }
  destruct (mkdir (OUTPUT_DIR E) w) as [[[]|e1] w1]; simpl in *; [|done].
  pose proof (ensure_model_same_files w1) as Hf2.
  pose proof (ensure_model_sends w1) as Hs2.
  pose proof (ensure_model_emits w1) as Ho2.
  pose proof (ensure_model_unreachable w1) as Hu.
  destruct (ensure_model E w1) as [[[]|e2] w2]; simpl in *; [done|].
  injection Hguard as ->.
  split; [done|]. split; [unfold same_files in *; congruence|].
  split; [exact (transitivity (R := sends (fun r => ~ is_txt2img r)) Hs1 Hs2)|]. split.
  - destruct (transitivity (R := emits guard_line) Ho1 Ho2) as (ls & Hls & Hg). exists ls.
    split; [done|]. split; [done | by apply guard_lines_quiet].
  - intros d Hd. rewrite Hb in Hu. specialize (Hu d Hd). congruence.
Qed.

Lemma loop_body_not_closing total i filename cfg :
  preserves (emits (fun l => ~ closing l)) (loop_body E total i filename cfg).
Proof. unfold loop_body, try_block, generate_call, save. frame. Qed.

(** C8 (as amended). After every asset has had its turn, the run prints
    one closing line, and that line is a fixed message naming the output
    directory and nothing else: it holds no count of succeeded or failed
    assets and no failed identifier or reason.  Failures show only in the
    ["ERROR"] lines of the turns before it. *)
Theorem closing_line_names_directory_only ASSETS w w0 :
  bind (mkdir (OUTPUT_DIR E)) (fun _ => ensure_model E) w = (Ok tt, w0) ->
  exists ls,
    out (snd (generate_all_assets E ASSETS w)) = out w0 ++ ls ++ [Complete (OUTPUT_DIR E)] /\
    attempted ls = map fst ASSETS /\
    Forall (fun l => ~ closing l) ls.
Proof.
  intros Hguard. rewrite generate_all_assets_unfold, Hguard. unfold bind.
  pose proof (for_assets_ok (length ASSETS) ASSETS 1%nat w0) as Hok.
  destruct (for_assets_out (length ASSETS) ASSETS 1%nat w0) as (ls & Hls & Hatt).
  destruct (for_assets_preserves (emits (fun l => ~ closing l)) (length ASSETS) ASSETS
              (loop_body_not_closing (length ASSETS)) 1%nat w0) as (ls' & Hls' & Hno).
  destruct (for_assets E (length ASSETS) 1 ASSETS w0) as [[[]|e] w1]; simpl in *; [|done].
  exists ls. rewrite Hls, <- app_assoc. split; [done|]. split; [done|].
  rewrite Hls in Hls'. by apply app_inv_head in Hls' as ->.
Qed.

(** ** Beyond the claims: the generation client *)

(** X1. A reply with a status from 400 to 599 makes [generate_image] raise
    the [HTTPError] of [raise_for_status], whatever the body of the reply
    holds: the body is never read. *)
Theorem generate_image_error_status p n wd ht w st content b :
  serve E (backend w) (txt2img (build_payload p n wd ht)) = (Reply st content, b) ->
  400 <= st < 600 ->
  fst (generate_image E p n wd ht w) = Raise (HTTPError st).
Proof.
  intros Hserve Hst.
  unfold generate_image, bind, requests. fold txt2img_url.
  change (Post txt2img_url (Txt2imgBody (build_payload p n wd ht)))
    with (txt2img (build_payload p n wd ht)).
  rewrite Hserve. unfold raise_for_status. simpl.
  replace (400 <=? st) with true by (symmetry; apply Z.leb_le; lia).
  replace (st <? 600) with true by (symmetry; apply Z.ltb_lt; lia).
  done.
Qed.

(** X2. Of the pictures of a reply, [generate_image] decodes the first and
    only the first: it returns what [base64.b64decode] returns on that
    string and raises what it raises, whatever the rest of the list. *)
Theorem generate_image_first_picture p n wd ht w st members s others b :
  serve E (backend w) (txt2img (build_payload p n wd ht))
    = (Reply st (Some (JObj members)), b) ->
  ~ 400 <= st < 600 ->
  lookup_key "images" members = Some (JArr (JStr s :: others)) ->
  fst (generate_image E p n wd ht w) = b64decode E s.
Proof.
  intros Hserve Hst Himages.
  unfold generate_image, bind, requests. fold txt2img_url.
  change (Post txt2img_url (Txt2imgBody (build_payload p n wd ht)))
    with (txt2img (build_payload p n wd ht)).
  rewrite Hserve. unfold raise_for_status. simpl.
  replace ((400 <=? st) && (st <? 600)) with false; cycle 1.
  { symmetry. apply andb_false_iff.
    destruct (Z.leb_spec 400 st); [right; apply Z.ltb_ge; lia | by left]. }
  simpl. unfold json_item. rewrite Himages. simpl.
  by destruct (b64decode E s).
Qed.

(** X3. A reply with a good status and no usable picture makes
    [generate_image] raise: [JSONDecodeError] for a body that is not JSON,
    [KeyError('images')] for an object without that key, [IndexError] for
    an empty list of pictures. *)
Theorem generate_image_malformed_reply p n wd ht w st content b :
  serve E (backend w) (txt2img (build_payload p n wd ht)) = (Reply st content, b) ->
  ~ 400 <= st < 600 ->
  (content = None -> fst (generate_image E p n wd ht w) = Raise JSONDecodeError) /\
  (forall members,
     content = Some (JObj members) -> lookup_key "images" members = None ->
     fst (generate_image E p n wd ht w) = Raise (KeyError "images")) /\
  (forall members,
     content = Some (JObj members) -> lookup_key "images" members = Some (JArr []) ->
     fst (generate_image E p n wd ht w) = Raise IndexError).
Proof.
  intros Hserve Hst.
  unfold generate_image, bind, requests. fold txt2img_url.
  change (Post txt2img_url (Txt2imgBody (build_payload p n wd ht)))
    with (txt2img (build_payload p n wd ht)).
  rewrite Hserve. unfold raise_for_status. simpl.
  replace ((400 <=? st) && (st <? 600)) with false; cycle 1.
  { symmetry. apply andb_false_iff.
    destruct (Z.leb_spec 400 st); [right; apply Z.ltb_ge; lia | by left]. }
  simpl. split; [by intros ->|]. split.
  - intros members -> Hk. simpl. unfold json_item. by rewrite Hk.
  - intros members -> Hk. simpl. unfold json_item. by rewrite Hk.
Qed.

(** X4. [generate_image] makes one attempt: returning or raising, it has
    sent exactly one request, printed nothing and written nothing; and a
    request that [requests.post] cannot complete is not sent again, its
    error is raised. *)
Theorem generate_image_single_attempt p n wd ht w :
  let w' := snd (generate_image E p n wd ht w) in
  sent w' = sent w ++ [txt2img (build_payload p n wd ht)] /\
  out w' = out w /\ files w' = files w /\
  (forall d,
     fst (serve E (backend w) (txt2img (build_payload p n wd ht))) = TransportError d ->
     fst (generate_image E p n wd ht w) = Raise (RequestException d)).
Proof.
  destruct (generate_image_world p n wd ht w) as (Hsent & Hfiles & Hout).
  split; [done|]. split; [done|]. split; [done|].
  intros d Hd. unfold generate_image, bind, requests. fold txt2img_url.
  change (Post txt2img_url (Txt2imgBody (build_payload p n wd ht)))
    with (txt2img (build_payload p n wd ht)).
  destruct (serve E (backend w) (txt2img (build_payload p n wd ht))) as [rep b].
  simpl in Hd. by subst rep.
Qed.

(** ** Beyond the claims: the guard *)

(** X5. Whatever the backend answers, the guard sends its query first and
    after it at most one request, the switch to the required model. *)
Theorem ensure_model_requests w :
  exists rest,
    sent (snd (ensure_model E w)) = sent w ++ Get options_url :: rest /\
    (rest = [] \/ rest = [Post options_url (OptionsBody target_model)]).
Proof.
  unfold ensure_model, bind, print, requests, response_json, json_get, json_contains,
    ret, raise. simpl. fold options_url.
  destruct (serve E (backend w) (Get options_url)) as [[d|st c] b]; simpl.
  { exists []. by split; [|left]. }
  repeat (case_match; simplify_eq/=);
    try (exists []; by split; [|left]);
    (exists [Post options_url (OptionsBody target_model)];
     split; [by rewrite <- ?app_assoc | by right]).
Qed.

(** X6. When the guard raises anything but the error of a request that
    could not be completed, it is because the answer to its query cannot
    be used (no JSON, no object, a model name that is no text), and then
    the query is all it has sent: no switch is attempted on a backend
    whose state it could not read. *)
Theorem ensure_model_unusable_answer w e :
  fst (ensure_model E w) = Raise e ->
  (forall d, e <> RequestException d) ->
  (e = JSONDecodeError \/ e = AttributeError \/ e = TypeError) /\
  sent (snd (ensure_model E w)) = sent w ++ [Get options_url].
Proof.
  unfold ensure_model, bind, print, requests, response_json, json_get, json_contains,
    ret, raise. simpl. fold options_url.
  destruct (serve E (backend w) (Get options_url)) as [[d|st c] b]; simpl.
  { intros [= <-] Hne. by destruct (Hne d). }
  repeat (case_match; simplify_eq/=); intros He Hne; simplify_eq/=;
    try (by destruct (Hne _)); naive_solver.
Qed.

(** ** Beyond the claims: requests of a run *)

Lemma generate_image_fixed p n wd ht :
  preserves (sends fixed_parameters) (generate_image E p n wd ht).
Proof.
  intros w. exists [Post txt2img_url (Txt2imgBody (build_payload p n wd ht))].
  split; [apply generate_image_world|]. constructor; [|constructor]. by simpl.
Qed.

#[local] Hint Resolve generate_image_fixed : frame.

(** X7. No entry of a registry can change the sampling settings: every
    generation request of a run asks for 4 steps at guidance 2.0 with the
    DPM++ SDE sampler and the Karras scheduler, one picture per call. *)
Theorem fixed_generation_parameters ASSETS w :
  exists rs,
    sent (snd (generate_all_assets E ASSETS w)) = sent w ++ rs /\
    Forall fixed_parameters rs.
Proof.
  assert (preserves (sends fixed_parameters) (generate_all_assets E ASSETS)) as H; [|apply H].
  assert (forall i filename cfg,
    preserves (sends fixed_parameters) (loop_body E (length ASSETS) i filename cfg)) as Hbody.
  { intros. unfold loop_body, try_block, generate_call, save. frame. }
  pose proof (for_assets_preserves (sends fixed_parameters) (length ASSETS) ASSETS
                Hbody 1%nat) as Hloop.
  unfold generate_all_assets, ensure_model. frame.
Qed.

Lemma loop_body_sent total i filename cfg w :
  sent (snd (loop_body E total i filename cfg w)) = sent w ++ requested [(filename, cfg)].
Proof.
  unfold requested, resolve. simpl. destruct (prompt cfg) as [p|] eqn:Hp.
  - by apply loop_body_request.
  - rewrite loop_body_no_prompt by done. simpl. by rewrite app_nil_r.
Qed.

Lemma requested_cons item items : requested (item :: items) = requested [item] ++ requested items.
Proof. unfold requested. simpl. by destruct (resolve (snd item)). Qed.

Lemma for_assets_sent total items : forall i w,
  sent (snd (for_assets E total i items w)) = sent w ++ requested items.
Proof.
  induction items as [|[filename cfg] rest IH]; intros i w.
  - simpl. by rewrite app_nil_r.
  - rewrite requested_cons. simpl. unfold bind.
    pose proof (loop_body_ok total i filename cfg w) as Hok.
    pose proof (loop_body_sent total i filename cfg w) as Hs.
    destruct (loop_body E total i filename cfg w) as [[[]|e] w1]; simpl in *; [|done].
    by rewrite IH, Hs, <- app_assoc.
Qed.

(** X8. Once the guard is through, a run sends one generation request for
    each entry that has a prompt, in registration order, and nothing else:
    no entry is requested twice, none is skipped after an earlier failure,
    and a failed request is not repeated. *)
Theorem requests_follow_registry ASSETS w w0 :
  bind (mkdir (OUTPUT_DIR E)) (fun _ => ensure_model E) w = (Ok tt, w0) ->
  sent (snd (generate_all_assets E ASSETS w)) = sent w0 ++ requested ASSETS.
Proof.
  intros Hguard. rewrite generate_all_assets_unfold, Hguard. unfold bind.
  pose proof (for_assets_ok (length ASSETS) ASSETS 1%nat w0) as Hok.
  pose proof (for_assets_sent (length ASSETS) ASSETS 1%nat w0) as Hs.
  by destruct (for_assets E (length ASSETS) 1 ASSETS w0) as [[[]|e] w1].
Qed.

(** X9. An entry with nothing but a prompt is requested with exactly the
    settings of [SD_CONFIG]: its negative prompt, 512 by 512, and the
    sampling settings. *)
Theorem plain_entry_uses_defaults total i filename w p rb :
  sent (snd (loop_body E total i filename
               {| prompt := Some p; negative := None; width := None; height := None;
                  remove_bg := rb |} w)) =
  sent w ++ [txt2img {|
    req_prompt := p;
    req_negative_prompt := sd_negative_prompt SD_CONFIG;
    req_steps := sd_steps SD_CONFIG;
    req_cfg_scale := sd_cfg_scale SD_CONFIG;
    req_width := sd_width SD_CONFIG;
    req_height := sd_height SD_CONFIG;
    req_sampler_name := sd_sampler_name SD_CONFIG;
    req_scheduler := sd_scheduler SD_CONFIG;
    req_batch_size := 1;
    req_n_iter := 1 |}].
Proof. by rewrite (loop_body_request total i filename _ w p). Qed.

(** ** Beyond the claims: what a turn saves *)

Lemma apply_background_removal_raises image_data w e :
  fst (apply_background_removal E image_data w) = Raise e ->
  snd (apply_background_removal E image_data w) = w.
Proof.
  unfold apply_background_removal.
  destruct (REMBG_AVAILABLE E); simpl; [|done].
  destruct (Image_open E image_data) as [input|]; [|done].
  by destruct (remove_background E input).
Qed.

(** X10. When the background removal itself raises, on a picture that
    [PIL] cannot open or that [rembg] cannot process, the asset is not
    saved, not even as generated: its turn leaves the files as they were
    and ends on the ["ERROR"] line. *)
Theorem failed_background_removal_saves_nothing total i filename cfg w image_data e :
  let call := generate_call E cfg (get (width cfg) (sd_width SD_CONFIG))
                (get (height cfg) (sd_height SD_CONFIG))
                (get (negative cfg) (sd_negative_prompt SD_CONFIG))
                (snd (print (Generating i total filename) w)) in
  let w' := snd (loop_body E total i filename cfg w) in
  remove_bg cfg = Some true ->
  fst call = Ok image_data ->
  fst (apply_background_removal E image_data (snd (print RemovingBackground (snd call))))
    = Raise e ->
  files w' = files w /\
  out w' = out w ++ [Generating i total filename; RemovingBackground; Error e].
Proof.
  intros call w' Hflag Hcall Hraise. subst w'. rewrite loop_body_unfold. fold call.
  pose proof (generate_call_same_files cfg (get (width cfg) (sd_width SD_CONFIG))
                (get (height cfg) (sd_height SD_CONFIG))
                (get (negative cfg) (sd_negative_prompt SD_CONFIG))
                (snd (print (Generating i total filename) w))) as Hf.
  pose proof (generate_call_quiet cfg (get (width cfg) (sd_width SD_CONFIG))
                (get (height cfg) (sd_height SD_CONFIG))
                (get (negative cfg) (sd_negative_prompt SD_CONFIG))
                (snd (print (Generating i total filename) w))) as Hq.
  fold call in Hf, Hq. unfold same_files in Hf. simpl in Hf, Hq.
  destruct call as [[d|e0] w2]; simpl in *; [|done]. injection Hcall as ->.
  rewrite Hflag. unfold try_except, save, bind.
  change (print RemovingBackground w2) with (Ok tt, snd (print RemovingBackground w2)).
  cbv iota beta.
  pose proof (apply_background_removal_raises image_data _ e Hraise) as Hw.
  simpl in *.
  destruct (apply_background_removal E image_data _) as [[d'|e'] w3]; simpl in *; [done|].
  injection Hraise as ->. subst w3. simpl.
  split; [done|]. rewrite Hq, <- !app_assoc. done.
Qed.

(** X11. With [rembg] there, a flagged asset is saved as the PNG of the
    picture with its background removed, not as generated. *)
Theorem background_removed_before_saving total i filename cfg w image_data input output :
  let output_path := joinpath E (OUTPUT_DIR E) filename in
  let call := generate_call E cfg (get (width cfg) (sd_width SD_CONFIG))
                (get (height cfg) (sd_height SD_CONFIG))
                (get (negative cfg) (sd_negative_prompt SD_CONFIG))
                (snd (print (Generating i total filename) w)) in
  let w' := snd (loop_body E total i filename cfg w) in
  REMBG_AVAILABLE E = true ->
  remove_bg cfg = Some true ->
  fst call = Ok image_data ->
  Image_open E image_data = Some input ->
  remove_background E input = Some output ->
  writable E output_path = true ->
  files w' = <[output_path := Image_save_png E output]> (files w) /\
  out w' = out w ++ [Generating i total filename; RemovingBackground; Saved output_path].
Proof.
  intros output_path call w' Hrembg Hflag Hcall Hopen Hrm Hw.
  subst w'. rewrite loop_body_unfold. fold output_path. fold call.
  pose proof (generate_call_same_files cfg (get (width cfg) (sd_width SD_CONFIG))
                (get (height cfg) (sd_height SD_CONFIG))
                (get (negative cfg) (sd_negative_prompt SD_CONFIG))
                (snd (print (Generating i total filename) w))) as Hf.
  pose proof (generate_call_quiet cfg (get (width cfg) (sd_width SD_CONFIG))
                (get (height cfg) (sd_height SD_CONFIG))
                (get (negative cfg) (sd_negative_prompt SD_CONFIG))
                (snd (print (Generating i total filename) w))) as Hq.
  fold call in Hf, Hq. unfold same_files in Hf. simpl in Hf, Hq.
  destruct call as [[d|e0] w2]; simpl in *; [|done]. injection Hcall as ->.
  rewrite Hflag. unfold try_except, save, bind, apply_background_removal. simpl.
  rewrite Hrembg. simpl. rewrite Hopen, Hrm. simpl.
  unfold write_file. rewrite Hw. simpl.
  split; [by rewrite Hf|]. rewrite Hq, <- !app_assoc. done.
Qed.

(** X12. An asset that does not ask for background removal never goes
    near [rembg]: installed or not, the asset is saved as generated and
    its turn prints its opening line and its ["Saved"] line only. *)
Theorem unflagged_asset_saved_as_generated total i filename cfg w image_data :
  let output_path := joinpath E (OUTPUT_DIR E) filename in
  let call := generate_call E cfg (get (width cfg) (sd_width SD_CONFIG))
                (get (height cfg) (sd_height SD_CONFIG))
                (get (negative cfg) (sd_negative_prompt SD_CONFIG))
                (snd (print (Generating i total filename) w)) in
  let w' := snd (loop_body E total i filename cfg w) in
  remove_bg cfg = None \/ remove_bg cfg = Some false ->
  fst call = Ok image_data ->
  writable E output_path = true ->
  files w' = <[output_path := image_data]> (files w) /\
  out w' = out w ++ [Generating i total filename; Saved output_path].
Proof.
  intros output_path call w' Hflag Hcall Hw.
  subst w'. rewrite loop_body_unfold. fold output_path. fold call.
  pose proof (generate_call_same_files cfg (get (width cfg) (sd_width SD_CONFIG))
                (get (height cfg) (sd_height SD_CONFIG))
                (get (negative cfg) (sd_negative_prompt SD_CONFIG))
                (snd (print (Generating i total filename) w))) as Hf.
  pose proof (generate_call_quiet cfg (get (width cfg) (sd_width SD_CONFIG))
                (get (height cfg) (sd_height SD_CONFIG))
                (get (negative cfg) (sd_negative_prompt SD_CONFIG))
                (snd (print (Generating i total filename) w))) as Hq.
  fold call in Hf, Hq. unfold same_files in Hf. simpl in Hf, Hq.
  destruct call as [[d|e0] w2]; simpl in *; [|done]. injection Hcall as ->.
  assert (get (remove_bg cfg) false = false) as -> by (by destruct Hflag as [->| ->]).
  unfold try_except, save, bind. simpl.
  unfold write_file. rewrite Hw. simpl.
  split; [by rewrite Hf|]. rewrite Hq, <- !app_assoc. done.
Qed.

(** ** Beyond the claims: the files of a run *)

#[local] Instance writes_within_preorder allowed : PreOrder (@writes_within E allowed).
Proof.
  split.
  - intros w path. by left.
  - intros w1 w2 w3 H12 H23 path.
    destruct (H23 path) as [H|[? ?]]; [|by right].
    destruct (H12 path) as [H'|[? ?]]; [left; congruence|].
    right. by rewrite H.
Qed.

Lemma writes_quiet allowed w w' : files w' = files w -> writes_within allowed w w'.
Proof. intros H path. left. by rewrite H. Qed.

Lemma writes_weaken (A B : string -> Prop) w w' :
  (forall path, A path -> B path) -> writes_within A w w' -> writes_within B w w'.
Proof. intros HAB H path. destruct (H path) as [?|[? ?]]; [by left | right; auto]. Qed.

Lemma writes_print allowed l : preserves (writes_within allowed) (@print E l).
Proof. intros w. by apply writes_quiet. Qed.

Lemma writes_requests allowed r : preserves (writes_within allowed) (@requests E r).
Proof. intros w. apply writes_quiet, same_files_requests. Qed.

Lemma writes_mkdir allowed path : preserves (writes_within allowed) (@mkdir E path).
Proof. intros w. apply writes_quiet, same_files_mkdir. Qed.

Lemma writes_generate_image allowed p n wd ht :
  preserves (writes_within allowed) (generate_image E p n wd ht).
Proof. intros w. apply writes_quiet, generate_image_world. Qed.

Lemma writes_ensure_model allowed : preserves (writes_within allowed) (ensure_model E).
Proof. intros w. apply writes_quiet, ensure_model_same_files. Qed.

Lemma writes_write_file output_path image_data :
  preserves (writes_within (fun path => path = output_path))
    (@write_file E output_path image_data).
Proof.
  intros w path. unfold write_file. destruct (writable E output_path); simpl; [|by left].
  destruct (decide (path = output_path)) as [->|Hne].
  - right. split; [done|]. rewrite lookup_insert_eq. by eexists.
  - left. by rewrite lookup_insert_ne.
Qed.

#[local] Hint Resolve writes_print writes_requests writes_mkdir writes_generate_image
  writes_ensure_model writes_write_file : frame.

Lemma loop_body_writes total i filename cfg :
  preserves (writes_within (fun path => path = joinpath E (OUTPUT_DIR E) filename))
    (loop_body E total i filename cfg).
Proof. unfold loop_body, try_block, generate_call, save. frame. Qed.

Lemma for_assets_writes total items : forall i,
  preserves
    (writes_within (fun path =>
       exists filename, filename ∈ map fst items /\ path = joinpath E (OUTPUT_DIR E) filename))
    (for_assets E total i items).
Proof.
  induction items as [|[filename cfg] rest IH]; intros i; simpl.
  - apply preserves_ret. apply _.
  - apply preserves_bind; [apply _| |intros _].
    + intros w. eapply writes_weaken; [|apply loop_body_writes].
      intros path ->. exists filename. split; [apply list_elem_of_here | done].
    + intros w. eapply writes_weaken; [|apply IH].
      intros path (f & Hf & ->). exists f. split; [by apply list_elem_of_further | done].
Qed.

(** X13. A run touches the files of its registry only: a path whose
    content differs after the run is the output path of a registered
    asset and holds a picture; every other file is as it was, and no file
    is ever removed, so the pictures of assets no longer registered stay
    where an earlier run left them. *)
Theorem run_writes_registry_paths_only ASSETS w path :
  let w' := snd (generate_all_assets E ASSETS w) in
  (files w' !! path = files w !! path \/
   ((exists filename,
       filename ∈ map fst ASSETS /\ path = joinpath E (OUTPUT_DIR E) filename) /\
    is_Some (files w' !! path))) /\
  (is_Some (files w !! path) -> is_Some (files w' !! path)).
Proof.
  intros w'.
  assert (writes_within (fun path =>
            exists filename,
              filename ∈ map fst ASSETS /\ path = joinpath E (OUTPUT_DIR E) filename) w w')
    as H.
  { subst w'. revert w.
    pose proof (for_assets_writes (length ASSETS) ASSETS 1%nat) as Hloop.
    unfold generate_all_assets. frame. }
  split; [apply H|].
  intros Hsome. destruct (H path) as [->|[_ ?]]; done.
Qed.

(** ** Beyond the claims: the output of a run *)

Lemma progress_app l1 l2 : progress (l1 ++ l2) = progress l1 ++ progress l2.
Proof. apply omap_app. Qed.

Lemma progress_quiet ls : attempted ls = [] -> progress ls = [].
Proof.
  induction ls as [|l ls IH]; [done|].
  destruct l; try done; apply IH.
Qed.

Lemma for_assets_progress total items : forall i w,
  exists ls,
    out (snd (for_assets E total i items w)) = out w ++ ls /\
    progress ls =
      zip_with (fun k item => (k, total, fst item)) (seq i (length items)) items.
Proof.
  induction items as [|[filename cfg] rest IH]; intros i w; simpl.
  - exists []. by rewrite app_nil_r.
  - unfold bind. pose proof (loop_body_ok total i filename cfg w) as Hb.
    destruct (loop_body_out total i filename cfg w) as (during & Hout & Hquiet & _).
    destruct (loop_body E total i filename cfg w) as [[[]|e] w']; simpl in *; [|done].
    destruct (IH (S i) w') as (ls & Hls & Hp).
    exists (Generating i total filename :: during ++ ls).
    rewrite Hls, Hout, <- app_assoc. split; [done|].
    change (progress (Generating i total filename :: during ++ ls))
      with ((i, total, filename) :: progress (during ++ ls)).
    by rewrite progress_app, (progress_quiet during), Hp.
Qed.

(** X14. The counter of the opening lines runs from 1 to the size of the
    registry: once the guard is through, the [k]-th asset is announced as
    ["[k/total]"], with [total] the number of registered assets, whatever
    became of the assets before it. *)
Theorem progress_counts_every_asset ASSETS w w0 :
  bind (mkdir (OUTPUT_DIR E)) (fun _ => ensure_model E) w = (Ok tt, w0) ->
  exists ls,
    out (snd (generate_all_assets E ASSETS w)) = out w0 ++ ls /\
    progress ls =
      zip_with (fun k item => (k, length ASSETS, fst item))
        (seq 1 (length ASSETS)) ASSETS.
Proof.
  intros Hguard. rewrite generate_all_assets_unfold, Hguard. unfold bind.
  pose proof (for_assets_ok (length ASSETS) ASSETS 1%nat w0) as Hok.
  destruct (for_assets_progress (length ASSETS) ASSETS 1%nat w0) as (ls & Hls & Hp).
  destruct (for_assets E (length ASSETS) 1 ASSETS w0) as [[[]|e] w1]; simpl in *; [|done].
  exists (ls ++ [Complete (OUTPUT_DIR E)]). rewrite Hls, <- app_assoc. split; [done|].
  rewrite progress_app, Hp. simpl. by rewrite app_nil_r.
Qed.

(** X16. The directory comes first: when it cannot be made, the run
    raises that error without having contacted the backend or printed a
    line. *)
Theorem no_directory_no_request ASSETS w e :
  fst (mkdir (OUTPUT_DIR E) w) = Raise e ->
  fst (generate_all_assets E ASSETS w) = Raise e /\
  sent (snd (generate_all_assets E ASSETS w)) = sent w /\
  out (snd (generate_all_assets E ASSETS w)) = out w.
Proof.
  intros Hmk. unfold generate_all_assets, bind.
  assert (snd (mkdir (OUTPUT_DIR E) w) = w) as Hw.
  { revert Hmk. unfold mkdir. by destruct (writable E (OUTPUT_DIR E)). }
  destruct (mkdir (OUTPUT_DIR E) w) as [[[]|e'] w1]; simpl in *; [done|].
  injection Hmk as ->. by subst w1.
Qed.

Lemma saved_app l1 l2 : saved (l1 ++ l2) = saved l1 ++ saved l2.
Proof. apply omap_app. Qed.

Lemma errors_app l1 l2 : errors (l1 ++ l2) = errors l1 ++ errors l2.
Proof. apply omap_app. Qed.

(** What the second half of a turn prints and writes: it ends in a
    ["Saved"] line with the file written, or in an ["ERROR"] line. *)
Lemma save_outcome output_path rb image_data w :
  let w' := snd (try_except (save E output_path rb image_data)
                   (fun e => print (Error e)) w) in
  exists ls,
    out w' = out w ++ ls /\
    ((saved ls = [output_path] /\ errors ls = [] /\
      is_Some (files w' !! output_path)) \/
     (saved ls = [] /\ exists e, errors ls = [e])).
Proof.
  unfold save, try_except, bind, apply_background_removal, write_file, print, ret, raise.
  destruct rb; simpl.
  - destruct (REMBG_AVAILABLE E); simpl.
    + destruct (Image_open E image_data) as [input|]; simpl;
        [|eexists; split; [by rewrite <- ?app_assoc|]; right; simpl; eauto].
      destruct (remove_background E input) as [output|]; simpl;
        [|eexists; split; [by rewrite <- ?app_assoc|]; right; simpl; eauto].
      destruct (writable E output_path); simpl;
        (eexists; split; [by rewrite <- ?app_assoc|]); simpl;
        [left; by rewrite lookup_insert_eq | right; eauto].
    + destruct (writable E output_path); simpl;
        (eexists; split; [by rewrite <- ?app_assoc|]); simpl;
        [left; by rewrite lookup_insert_eq | right; eauto].
  - destruct (writable E output_path); simpl;
      (eexists; split; [by rewrite <- ?app_assoc|]); simpl;
      [left; by rewrite lookup_insert_eq | right; eauto].
Qed.

Lemma loop_body_outcome total i filename cfg w :
  let w' := snd (loop_body E total i filename cfg w) in
  exists ls,
    out w' = out w ++ ls /\
    ((saved ls = [joinpath E (OUTPUT_DIR E) filename] /\ errors ls = [] /\
      is_Some (files w' !! joinpath E (OUTPUT_DIR E) filename)) \/
     (saved ls = [] /\ exists e, errors ls = [e])).
Proof.
  intros w'. subst w'. rewrite loop_body_unfold.
  pose proof (generate_call_quiet cfg (get (width cfg) (sd_width SD_CONFIG))
                (get (height cfg) (sd_height SD_CONFIG))
                (get (negative cfg) (sd_negative_prompt SD_CONFIG))
                (snd (print (Generating i total filename) w))) as Hq.
  destruct (generate_call E cfg _ _ _ _) as [[d|e] w2]; simpl in *.
  - destruct (save_outcome (joinpath E (OUTPUT_DIR E) filename)
                (get (remove_bg cfg) false) d w2) as (ls & Hls & Hcases).
    exists (Generating i total filename :: ls).
    split; [by rewrite Hls, Hq, <- app_assoc|]. exact Hcases.
  - exists [Generating i total filename; Error e].
    split; [by rewrite Hq, <- app_assoc|]. right. eauto.
Qed.

#[local] Instance accounted_preorder : PreOrder (@accounted E).
Proof.
  split.
  - intros w. split; [done|]. exists []. rewrite app_nil_r. split; [done|].
    intros path Hin. by apply elem_of_nil in Hin.
  - intros w1 w2 w3 [K12 (l1 & H1 & S1)] [K23 (l2 & H2 & S2)]. split; [by auto|].
    exists (l1 ++ l2). rewrite H2, H1, <- app_assoc. split; [done|].
    intros path Hin. rewrite saved_app in Hin. apply elem_of_app in Hin as [Hin|Hin]; auto.
Qed.

Lemma loop_body_accounted total i filename cfg :
  preserves accounted (loop_body E total i filename cfg).
Proof.
  intros w. split.
  - intros path Hsome.
    destruct (loop_body_writes total i filename cfg w path) as [->|[_ ?]]; done.
  - destruct (loop_body_outcome total i filename cfg w) as (ls & Hls & Hcases).
    exists ls. split; [done|]. intros path Hin.
    destruct Hcases as [(Hs & _ & Hfile)|(Hs & _)]; rewrite Hs in Hin.
    + apply list_elem_of_singleton in Hin as ->. done.
    + by apply elem_of_nil in Hin.
Qed.

Lemma for_assets_tally total items : forall i w,
  exists ls,
    out (snd (for_assets E total i items w)) = out w ++ ls /\
    (length (saved ls) + length (errors ls))%nat = length items.
Proof.
  induction items as [|[filename cfg] rest IH]; intros i w; simpl.
  - exists []. by rewrite app_nil_r.
  - unfold bind. pose proof (loop_body_ok total i filename cfg w) as Hb.
    destruct (loop_body_outcome total i filename cfg w) as (l1 & H1 & Hcases).
    destruct (loop_body E total i filename cfg w) as [[[]|e] w']; simpl in *; [|done].
    destruct (IH (S i) w') as (l2 & H2 & Hn).
    exists (l1 ++ l2). rewrite H2, H1, <- app_assoc. split; [done|].
    rewrite saved_app, errors_app, !length_app.
    destruct Hcases as [(-> & -> & _)|(-> & e & ->)]; simpl; lia.
Qed.

(** X17. Every asset of the registry is accounted for exactly once in the
    output of a run: the ["Saved"] lines and the ["ERROR"] lines together
    are as many as the registered assets, and every path in a ["Saved"]
    line holds a file when the run ends. *)
Theorem every_asset_saved_or_reported ASSETS w w0 :
  bind (mkdir (OUTPUT_DIR E)) (fun _ => ensure_model E) w = (Ok tt, w0) ->
  let w' := snd (generate_all_assets E ASSETS w) in
  exists ls,
    out w' = out w0 ++ ls /\
    (length (saved ls) + length (errors ls))%nat = length ASSETS /\
    forall path, path ∈ saved ls -> is_Some (files w' !! path).
Proof.
  intros Hguard w'. subst w'. rewrite generate_all_assets_unfold, Hguard. unfold bind.
  pose proof (for_assets_ok (length ASSETS) ASSETS 1%nat w0) as Hok.
  destruct (for_assets_tally (length ASSETS) ASSETS 1%nat w0) as (ls & Hls & Hn).
  destruct (for_assets_preserves accounted (length ASSETS) ASSETS
              (loop_body_accounted (length ASSETS)) 1%nat w0) as [_ (ls' & Hls' & Hfiles)].
  destruct (for_assets E (length ASSETS) 1 ASSETS w0) as [[[]|e] w1]; simpl in *; [|done].
  rewrite Hls in Hls'. apply app_inv_head in Hls' as <-.
  exists (ls ++ [Complete (OUTPUT_DIR E)]). rewrite Hls, <- app_assoc. split; [done|].
  rewrite saved_app, errors_app, !length_app. simpl. split; [lia|].
  intros path Hin. rewrite app_nil_r in Hin. auto.
Qed.

(** ** The batch after a failure *)


End Properties.

(** * Properties of the Play Store uploader *)

Section DeployProperties.

Import Deploy.

Context (E : Deploy.environment).

Implicit Types (w : Deploy.world E).

Ltac run_upload :=
  unfold upload_aab, upload_steps, discard_edit, try_except, bind, execute, item,
    media_file_upload, print, ret, raise; simpl.

(** X18. [upload_aab] returns only after the commit: when it returns, the
    insert has answered with an edit and the upload, on the state the
    insert left, with a bundle; and the calls made are, in this order, the
    insert, the upload of the bundle, the update of the track and the
    commit, all on the id of that edit, with the one release of the
    version code of that bundle; the edit is not deleted. *)
Theorem upload_aab_returns_after_commit aab_path target w :
  fst (upload_aab E aab_path target w) = Return tt ->
  exists edit s edit_id bundle s' version_code,
    execute_call E (api w) (EditsInsert PACKAGE_NAME) = (Ok (JObj edit), s) /\
    lookup_key "id" edit = Some edit_id /\
    execute_call E s (BundlesUpload PACKAGE_NAME edit_id aab_path)
      = (Ok (JObj bundle), s') /\
    lookup_key "versionCode" bundle = Some version_code /\
    calls (snd (upload_aab E aab_path target w)) = calls w ++
      [EditsInsert PACKAGE_NAME;
       BundlesUpload PACKAGE_NAME edit_id aab_path;
       TracksUpdate PACKAGE_NAME edit_id target
         {| track := target;
            releases := [ {| versionCodes := [str E version_code];
                             status := if String.eqb target "production"
                                       then "completed" else "draft" |} ] |};
       EditsCommit PACKAGE_NAME edit_id].
Proof.
  run_upload.
  repeat (case_match; simplify_eq/=); intros Hret; simplify_eq/=;
    eexists _, _, _, _, _, _; repeat (split; [eassumption|]);
    by rewrite <- !app_assoc.
Qed.

(** X19. Once the edit is open, a failure of any later step deletes it:
    when [upload_aab] raises after the insert has returned an edit with an
    id, the last call it made is the delete of that edit, and what it
    raises is an exception, never an exit. *)
Theorem upload_aab_failure_deletes_edit aab_path target w members s edit_id r :
  execute_call E (api w) (EditsInsert PACKAGE_NAME) = (Ok (JObj members), s) ->
  lookup_key "id" members = Some edit_id ->
  fst (upload_aab E aab_path target w) = Raised r ->
  last (calls (snd (upload_aab E aab_path target w)))
    = Some (EditsDelete PACKAGE_NAME edit_id) /\
  exists e, r = Exception e.
Proof.
  intros Hinsert Hid. run_upload. rewrite Hinsert. simpl. rewrite Hid. simpl.
  repeat (case_match; simplify_eq/=); intros Hr; simplify_eq/=;
    (split; [by rewrite ?last_snoc | by eexists]).
Qed.

(** X20. Without an edit there is nothing to delete: when the insert
    raises, or answers with an object that has no id, [upload_aab] raises
    that error, or [KeyError('id')], having made the insert call and no
    other. *)
Theorem upload_aab_no_edit_no_delete aab_path target w :
  (forall e s,
     execute_call E (api w) (EditsInsert PACKAGE_NAME) = (Raise e, s) ->
     fst (upload_aab E aab_path target w) = Raised (Exception e) /\
     calls (snd (upload_aab E aab_path target w)) = calls w ++ [EditsInsert PACKAGE_NAME]) /\
  (forall members s,
     execute_call E (api w) (EditsInsert PACKAGE_NAME) = (Ok (JObj members), s) ->
     lookup_key "id" members = None ->
     fst (upload_aab E aab_path target w) = Raised (Exception (KeyError "id")) /\
     calls (snd (upload_aab E aab_path target w)) = calls w ++ [EditsInsert PACKAGE_NAME]).
Proof.
  split.
  - intros e s Hinsert. run_upload. by rewrite Hinsert.
  - intros members s Hinsert Hid. run_upload. rewrite Hinsert. simpl. by rewrite Hid.
Qed.

(** X21. Whatever the API answers, a track is only ever updated with one
    release, of this package, on the track asked for, and its status is
    ["completed"] on the production track and ["draft"] on every other. *)
Theorem release_status_goes_by_track aab_path target w :
  exists cs,
    calls (snd (upload_aab E aab_path target w)) = calls w ++ cs /\
    Forall (release_for target) cs.
Proof.
  run_upload.
  repeat (case_match; simplify_eq/=);
    (eexists; split; [by rewrite <- ?app_assoc|]);
    repeat (constructor; simpl);
    eexists;
    by repeat match goal with
              | H : String.eqb target "production" = _ |- _ => rewrite H
              end.
Qed.

(** X22. The handler reports the first error only if the delete goes
    through: when the steps raise [e], [upload_aab]'s [try] raises [e]
    again if the delete returns, and the error of the delete, instead of
    [e], if the delete raises. *)
Theorem failed_delete_hides_first_error edit_id aab_path target w e w1 :
  upload_steps E edit_id aab_path target w = (Raised (Exception e), w1) ->
  (forall j s,
     execute_call E (api w1) (EditsDelete PACKAGE_NAME edit_id) = (Ok j, s) ->
     fst (try_except E (upload_steps E edit_id aab_path target) (discard_edit E edit_id) w)
       = Raised (Exception e)) /\
  (forall e' s,
     execute_call E (api w1) (EditsDelete PACKAGE_NAME edit_id) = (Raise e', s) ->
     fst (try_except E (upload_steps E edit_id aab_path target) (discard_edit E edit_id) w)
       = Raised (Exception e')).
Proof.
  intros Hsteps. unfold try_except. rewrite Hsteps.
  unfold discard_edit, bind, execute, raise.
  split; intros ? s Hdel; by rewrite Hdel.
Qed.

(** X23. [main] checks before it calls: with no key file named, with a
    key file that does not exist, or with a bundle that does not exist, in
    this order, it prints the matching error and exits with status 1
    without a single call to the API. *)
Theorem main_checks_before_calling a w :
  let w' := snd (main E a w) in
  (key_file a = None \/ key_file a = Some "" ->
     fst (main E a w) = Raised (SystemExit 1) /\ calls w' = calls w /\
     printed w' = printed w ++
       [NoKeyFile; KeyFileHint; KeyHowTo; KeyHowTo1; KeyHowTo2; KeyHowTo3; KeyHowTo4]) /\
  (forall key,
     key_file a = Some key -> key <> "" -> path_exists E key = false ->
     fst (main E a w) = Raised (SystemExit 1) /\ calls w' = calls w /\
     printed w' = printed w ++ [KeyFileNotFound key]) /\
  (forall key,
     key_file a = Some key -> key <> "" -> path_exists E key = true ->
     path_exists E (aab a) = false ->
     fst (main E a w) = Raised (SystemExit 1) /\ calls w' = calls w /\
     printed w' = printed w ++ [AabNotFound (aab a)]).
Proof.
  intros w'. subst w'. unfold main, sys_exit, bind, print, raise, ret. split; [|split].
  - intros [->| ->]; simpl; by rewrite <- !app_assoc.
  - intros key -> Hne Hk. destruct key; [done|]. by rewrite Hk.
  - intros key -> Hne Hk Ha. destruct key; [done|]. by rewrite Hk, Ha.
Qed.

(** X24. [main] calls the API only when a key file is named, the key file
    and the bundle both exist, and the client could be built from the key
    file. *)
Theorem main_calls_need_valid_inputs a w :
  calls (snd (main E a w)) <> calls w ->
  exists key,
    key_file a = Some key /\ key <> "" /\
    path_exists E key = true /\ path_exists E (aab a) = true /\
    load_service E key = None.
Proof.
  unfold main, sys_exit, get_service, bind, print, raise, ret.
  destruct (key_file a) as [[|c key]|]; simpl; [done| |done].
  destruct (path_exists E (String c key)) eqn:Hk; simpl; [|done].
  destruct (path_exists E (aab a)) eqn:Ha; simpl; [|done].
  destruct (load_service E (String c key)) eqn:Hs; simpl; [done|].
  intros _. by exists (String c key).
Qed.

End DeployProperties.

(** ** The theorems at work on concrete runs *)

(** The end-to-end scenario: ["a"] is saved, ["b"] fails on the transport
    error, and the run goes to its end. *)
Example scenario_run :
  let r := generate_all_assets demo [("a", asset_x); ("b", asset_y)] (start demo loaded) in
  fst r = Ok tt /\
  out (snd r) =
    [CheckingModel; AlreadyUsing target_model;
     Generating 1 2 "a"; Saved "/hex_buzz/assets/images/a";
     Generating 2 2 "b"; Error (RequestException "Connection refused");
     Complete "/hex_buzz/assets/images"] /\
  map_to_list (files (snd r)) = [("/hex_buzz/assets/images/a", [Byte.x78])].
Proof. vm_compute. done. Qed.

(** The registry of the script on a backend that holds another model: one
    query, one switch, and one request and one file for each of the 27
    assets. *)
Example registry_run :
  let r := generate_all_assets demo ASSETS (start demo "v1-5-pruned-emaonly.safetensors") in
  fst r = Ok tt /\ length (sent (snd r)) = 29%nat /\ size (files (snd r)) = 27%nat /\
  failures (out (snd r)) = [].
Proof. vm_compute. done. Qed.

(** C3, on a backend that reports the required model with a hash after its
    name: the query is the only request. *)
Lemma ensure_model_switches_iff_not_substring_witness :
  exists rest,
    sent (snd (ensure_model demo (start demo loaded))) = [] ++ Get options_url :: rest /\
    (rest = [Post options_url (OptionsBody target_model)] <->
       ~ exists l r, loaded = l +:+ target_model +:+ r) /\
    (rest = [] <-> exists l r, loaded = l +:+ target_model +:+ r).
Proof.
  apply (ensure_model_switches_iff_not_substring demo (start demo loaded) 200
           [("sd_model_checkpoint", JStr loaded)] loaded); reflexivity.
Defined.

(** C1, counterexample. An entry with a width of 1024 and no height is sent
    as 1024 by 512: the override next to a default, not the default pair. *)
Lemma partial_override_mixes_dimensions :
  width wide = Some 1024 /\ height wide = None /\
  exists pl,
    sent (snd (loop_body demo 1 1 "banner.png" wide (start demo loaded))) =
      [Post txt2img_url (Txt2imgBody pl)] /\
    req_width pl = 1024 /\ req_height pl = sd_height SD_CONFIG /\
    (req_width pl, req_height pl) <> (sd_width SD_CONFIG, sd_height SD_CONFIG).
Proof.
  split; [done|]. split; [done|]. eexists. split; [vm_compute; reflexivity|]. done.
Qed.

(** C1 (as amended), on the same entry. *)
Lemma dimensions_resolved_independently_witness :
  prompt wide = Some "x" /\
  exists pl,
    sent (snd (loop_body demo 1 1 "banner.png" wide (start demo loaded))) =
      [] ++ [Post txt2img_url (Txt2imgBody pl)] /\
    req_width pl = 1024 /\ req_height pl = 512.
Proof.
  split; [reflexivity|].
  apply (dimensions_resolved_independently demo 1 1 "banner.png" wide (start demo loaded) "x").
  reflexivity.
Defined.

(** C5, counterexample. An entry with an empty prompt raises nothing: its
    request goes out with the empty prompt and its file is saved. *)
Lemma empty_prompt_is_sent :
  prompt blank = Some "" /\
  let r := loop_body demo 1 1 "blank.png" blank (start demo loaded) in
  fst r = Ok tt /\
  out (snd r) = [Generating 1 1 "blank.png"; Saved "/hex_buzz/assets/images/blank.png"] /\
  exists pl,
    sent (snd r) = [Post txt2img_url (Txt2imgBody pl)] /\ req_prompt pl = "".
Proof.
  split; [done|]. split; [done|]. split; [vm_compute; reflexivity|].
  eexists. split; [vm_compute; reflexivity|]. done.
Qed.

(** C5 (as amended), on the entry with the empty prompt and on an entry
    with none. *)
Lemma prompt_sent_unchecked_witness :
  (exists pl,
     sent (snd (loop_body demo 1 1 "blank.png" blank (start demo loaded))) =
       [] ++ [Post txt2img_url (Txt2imgBody pl)] /\
     req_prompt pl = "") /\
  (let w' := snd (loop_body demo 1 1 "unnamed.png" unnamed (start demo loaded)) in
   fst (loop_body demo 1 1 "unnamed.png" unnamed (start demo loaded)) = Ok tt /\
   sent w' = [] /\ files w' = ∅ /\
   out w' = [] ++ [Generating 1 1 "unnamed.png"; Error (KeyError "prompt")]).
Proof.
  split.
  - apply (proj1 (prompt_sent_unchecked demo 1 1 "blank.png" blank (start demo loaded)) "").
    reflexivity.
  - apply (proj2 (prompt_sent_unchecked demo 1 1 "unnamed.png" unnamed (start demo loaded))).
    reflexivity.
Defined.

(** C6, on an entry whose negative prompt is the empty string. *)
Lemma negative_prompt_resolution_witness :
  prompt icon = Some "x" /\
  exists pl,
    sent (snd (loop_body demo 1 1 "icon.png" icon (start demo loaded))) =
      [] ++ [Post txt2img_url (Txt2imgBody pl)] /\
    (forall n, negative icon = Some n -> n <> "" -> req_negative_prompt pl = n) /\
    (negative icon = None \/ negative icon = Some "" ->
       req_negative_prompt pl = sd_negative_prompt SD_CONFIG).
Proof.
  split; [reflexivity|].
  apply (negative_prompt_resolution demo 1 1 "icon.png" icon (start demo loaded) "x").
  reflexivity.
Defined.

(** C7, on [demo], which has no [rembg], for an icon. *)
Lemma rembg_unavailable_keeps_asset_witness :
  REMBG_AVAILABLE demo = false /\
  (forall image_data w, fst (apply_background_removal demo image_data w) = Ok image_data) /\
  (let w' := snd (loop_body demo 1 1 "icon.png" icon (start demo loaded)) in
   files w' !! "/hex_buzz/assets/images/icon.png" = Some [Byte.x78] /\
   out w' = [] ++ [Generating 1 1 "icon.png"; RemovingBackground; RembgWarning;
                   Saved "/hex_buzz/assets/images/icon.png"]).
Proof.
  split; [reflexivity|].
  pose proof (rembg_unavailable_keeps_asset demo eq_refl) as [Hsame Hkept].
  split; [exact Hsame|].
  apply (Hkept 1%nat 1%nat "icon.png" icon (start demo loaded) [Byte.x78]); reflexivity.
Defined.

(** C9, on the asset for which the connection drops: nothing is written. *)
Lemma written_only_after_generation_witness :
  files (snd (loop_body demo 1 1 "b" asset_y (start demo loaded))) = ∅ /\
  forall path,
    Saved path ∉ drop 0 (out (snd (loop_body demo 1 1 "b" asset_y (start demo loaded)))).
Proof.
  apply (proj1 (written_only_after_generation demo 1 1 "b" asset_y (start demo loaded))
           (RequestException "Connection refused")).
  reflexivity.
Defined.

(** X25, with nothing listening on the port: the run ends on the error
    of the query. *)
Lemma guard_failure_aborts_run_witness :
  let w := start offline tt in
  let w' := snd (generate_all_assets offline ASSETS w) in
  fst (generate_all_assets offline ASSETS w) = Raise (RequestException "Connection refused") /\
  files w' = files w /\
  (exists rs, sent w' = sent w ++ rs /\ Forall (fun r => ~ is_txt2img r) rs) /\
  (exists ls, out w' = out w ++ ls /\ Forall guard_line ls /\ attempted ls = []) /\
  (forall d, fst (serve offline (backend w) (Get options_url)) = TransportError d ->
     RequestException "Connection refused" = RequestException d).
Proof.
  apply (guard_failure_aborts_run offline ASSETS (start offline tt)
           (RequestException "Connection refused")); reflexivity.
Defined.

(** C4. On a backend that answers the guard's query with status 500 and
    its switch request with status 503, the guard does not fail and the
    run does not stop: it prints ["Model switched."], requests the asset
    and writes its file.  [ensure_model] never looks at a status code,
    where [generate_image] calls [raise_for_status]. *)
Theorem guard_ignores_error_status :
  let r := generate_all_assets rejecting [("a", asset_x)] (start rejecting tt) in
  out (snd r) =
    [CheckingModel; Switching target_model; ModelSwitched;
     Generating 1 1 "a"; Saved "/hex_buzz/assets/images/a";
     Complete "/hex_buzz/assets/images"] /\
  sent (snd r) =
    [Get options_url; Post options_url (OptionsBody target_model);
     txt2img (build_payload "x" (sd_negative_prompt SD_CONFIG) 512 512)] /\
  map_to_list (files (snd r)) = [("/hex_buzz/assets/images/a", [Byte.x78])].
Proof. vm_compute. done. Qed.


(** C8, counterexample. A run with no failure and a run with one end on
    the same line: the closing line does not tell them apart, so it holds
    neither the counts nor the failed identifiers. *)
Lemma closing_line_same_for_different_outcomes :
  let good := snd (generate_all_assets demo [("a", asset_x)] (start demo loaded)) in
  let bad := snd (generate_all_assets demo [("a", asset_y)] (start demo loaded)) in
  failures (out good) = [] /\
  failures (out bad) = [("a", RequestException "Connection refused")] /\
  last (out good) = Some (Complete "/hex_buzz/assets/images") /\
  last (out bad) = last (out good).
Proof. vm_compute. done. Qed.

(** C8 (as amended), on the two-asset scenario. *)
Lemma closing_line_names_directory_only_witness :
  exists ls,
    out (snd (generate_all_assets demo [("a", asset_x); ("b", asset_y)] (start demo loaded))) =
      out guarded ++ ls ++ [Complete "/hex_buzz/assets/images"] /\
    attempted ls = ["a"; "b"] /\
    Forall (fun l => ~ closing l) ls.
Proof.
  apply (closing_line_names_directory_only demo [("a", asset_x); ("b", asset_y)]
           (start demo loaded) guarded).
  reflexivity.
Defined.

(** ** The further properties at work *)

(** X1, on a backend that answers 503 with a picture in the body. *)
Lemma generate_image_error_status_witness :
  fst (generate_image studio "busy" "" 512 512 (start studio None)) = Raise (HTTPError 503).
Proof.
  apply (generate_image_error_status studio "busy" "" 512 512 (start studio None) 503
           (Some (JObj [("images", JArr [JStr "x"])])) None); [reflexivity | lia].
Defined.

(** X2, on a reply with two pictures. *)
Lemma generate_image_first_picture_witness :
  fst (generate_image studio "x" "" 512 512 (start studio None)) = Ok [Byte.x78].
Proof.
  apply (generate_image_first_picture studio "x" "" 512 512 (start studio None) 200
           [("images", JArr [JStr "x"; JStr "second"])] "x" [JStr "second"] None);
    [reflexivity | lia | reflexivity].
Defined.

(** X3, on a reply with an empty list of pictures. *)
Lemma generate_image_malformed_reply_witness :
  fst (generate_image studio "none" "" 512 512 (start studio None)) = Raise IndexError.
Proof.
  apply (proj2 (proj2 (generate_image_malformed_reply studio "none" "" 512 512
                         (start studio None) 200 (Some (JObj [("images", JArr [])])) None
                         eq_refl ltac:(lia)))
           [("images", JArr [])]); reflexivity.
Defined.

(** X4, with nothing listening. *)
Lemma generate_image_single_attempt_witness :
  fst (generate_image offline "x" "" 512 512 (start offline tt))
    = Raise (RequestException "Connection refused").
Proof.
  apply (proj2 (proj2 (proj2 (generate_image_single_attempt offline "x" "" 512 512
                                (start offline tt))))).
  reflexivity.
Defined.

(** X6, on a backend whose options page is not JSON. *)
Lemma ensure_model_unusable_answer_witness :
  (JSONDecodeError = JSONDecodeError \/ JSONDecodeError = AttributeError \/
   JSONDecodeError = TypeError) /\
  sent (snd (ensure_model studio (start studio None))) = [] ++ [Get options_url].
Proof.
  apply (ensure_model_unusable_answer studio (start studio None) JSONDecodeError);
    [reflexivity | discriminate].
Defined.

(** X8, on the registry of the script, with [demo]: 27 requests. *)
Lemma requests_follow_registry_witness :
  sent (snd (generate_all_assets demo ASSETS (start demo loaded))) =
    sent guarded ++ requested ASSETS.
Proof.
  apply (requests_follow_registry demo ASSETS (start demo loaded) guarded). reflexivity.
Defined.

(** X10, on a picture with no bytes, which cannot be opened. *)
Lemma failed_background_removal_saves_nothing_witness :
  files (snd (loop_body studio 1 1 "blank.png" (prompted "" (Some true))
                (start studio None))) = ∅ /\
  out (snd (loop_body studio 1 1 "blank.png" (prompted "" (Some true))
              (start studio None))) =
    [] ++ [Generating 1 1 "blank.png"; RemovingBackground; Error (ImageError "Image.open")].
Proof.
  apply (failed_background_removal_saves_nothing studio 1 1 "blank.png"
           (prompted "" (Some true)) (start studio None) [] (ImageError "Image.open"));
    reflexivity.
Defined.

(** X11, on a picture of two bytes. *)
Lemma background_removed_before_saving_witness :
  files (snd (loop_body studio 1 1 "icon.png" (prompted "ab" (Some true))
                (start studio None))) =
    <["/hex_buzz/assets/images/icon.png" := [Byte.x62; Byte.x61]]> ∅ /\
  out (snd (loop_body studio 1 1 "icon.png" (prompted "ab" (Some true))
              (start studio None))) =
    [] ++ [Generating 1 1 "icon.png"; RemovingBackground;
           Saved "/hex_buzz/assets/images/icon.png"].
Proof.
  apply (background_removed_before_saving studio 1 1 "icon.png"
           (prompted "ab" (Some true)) (start studio None) [Byte.x61; Byte.x62]
           [Byte.x61; Byte.x62] [Byte.x62; Byte.x61]); reflexivity.
Defined.

(** X12, with [rembg] installed and an asset that does not ask for it. *)
Lemma unflagged_asset_saved_as_generated_witness :
  files (snd (loop_body studio 1 1 "tile.png" (prompted "ab" None)
                (start studio None))) =
    <["/hex_buzz/assets/images/tile.png" := [Byte.x61; Byte.x62]]> ∅ /\
  out (snd (loop_body studio 1 1 "tile.png" (prompted "ab" None) (start studio None))) =
    [] ++ [Generating 1 1 "tile.png"; Saved "/hex_buzz/assets/images/tile.png"].
Proof.
  apply (unflagged_asset_saved_as_generated studio 1 1 "tile.png"
           (prompted "ab" None) (start studio None) [Byte.x61; Byte.x62]);
    [by left | reflexivity | reflexivity].
Defined.

(** X14, on a registry whose first asset fails. *)
Lemma progress_counts_every_asset_witness :
  exists ls,
    out (snd (generate_all_assets demo [("b", asset_y); ("a", asset_x)] (start demo loaded)))
      = out guarded ++ ls /\
    progress ls = [(1%nat, 2%nat, "b"); (2%nat, 2%nat, "a")].
Proof.
  apply (progress_counts_every_asset demo [("b", asset_y); ("a", asset_x)]
           (start demo loaded) guarded). reflexivity.
Defined.

(** X16, on a machine where the directory cannot be made. *)
Lemma no_directory_no_request_witness :
  fst (generate_all_assets readonly ASSETS (start readonly loaded))
    = Raise (OSError "/hex_buzz/assets/images") /\
  sent (snd (generate_all_assets readonly ASSETS (start readonly loaded))) = [] /\
  out (snd (generate_all_assets readonly ASSETS (start readonly loaded))) = [].
Proof.
  apply (no_directory_no_request readonly ASSETS (start readonly loaded)
           (OSError "/hex_buzz/assets/images")). reflexivity.
Defined.

(** X17, on the two-asset scenario: one saved, one reported. *)
Lemma every_asset_saved_or_reported_witness :
  let w' := snd (generate_all_assets demo [("a", asset_x); ("b", asset_y)]
                   (start demo loaded)) in
  exists ls,
    out w' = out guarded ++ ls /\
    (length (saved ls) + length (errors ls))%nat = 2%nat /\
    forall path, path ∈ saved ls -> is_Some (files w' !! path).
Proof.
  apply (every_asset_saved_or_reported demo [("a", asset_x); ("b", asset_y)]
           (start demo loaded) guarded). reflexivity.
Defined.

(** X13, on a world that holds the picture of an asset no longer
    registered: it is still there after the run. *)
Lemma run_writes_registry_paths_only_witness :
  is_Some (files (snd (generate_all_assets demo [("a", asset_x)] revisited))
             !! "/hex_buzz/assets/images/old.png").
Proof.
  apply (proj2 (run_writes_registry_paths_only demo [("a", asset_x)] revisited
                  "/hex_buzz/assets/images/old.png")).
  by eexists.
Defined.

(** X18, on an API that accepts every call. *)
Lemma upload_aab_returns_after_commit_witness :
  exists edit s edit_id bundle s' version_code,
    Deploy.execute_call Deploy.play [] (Deploy.EditsInsert Deploy.PACKAGE_NAME)
      = (Ok (JObj edit), s) /\
    lookup_key "id" edit = Some edit_id /\
    Deploy.execute_call Deploy.play s
      (Deploy.BundlesUpload Deploy.PACKAGE_NAME edit_id "app.aab") = (Ok (JObj bundle), s') /\
    lookup_key "versionCode" bundle = Some version_code /\
    Deploy.calls (snd (Deploy.upload_aab Deploy.play "app.aab" "beta"
                         (Deploy.start Deploy.play []))) = [] ++
      [Deploy.EditsInsert Deploy.PACKAGE_NAME;
       Deploy.BundlesUpload Deploy.PACKAGE_NAME edit_id "app.aab";
       Deploy.TracksUpdate Deploy.PACKAGE_NAME edit_id "beta"
         {| Deploy.track := "beta";
            Deploy.releases :=
              [ {| Deploy.versionCodes := [Deploy.str Deploy.play version_code];
                   Deploy.status := "draft" |} ] |};
       Deploy.EditsCommit Deploy.PACKAGE_NAME edit_id].
Proof.
  apply (upload_aab_returns_after_commit Deploy.play "app.aab" "beta"
           (Deploy.start Deploy.play [])).
  reflexivity.
Defined.

(** X19, on an API that refuses the commit. *)
Lemma upload_aab_failure_deletes_edit_witness :
  last (Deploy.calls (snd (Deploy.upload_aab Deploy.play "app.aab" "production"
                             (Deploy.start Deploy.play ["commit"]))))
    = Some (Deploy.EditsDelete Deploy.PACKAGE_NAME (JStr "e1")) /\
  exists e, Deploy.Exception (RequestException "commit") = Deploy.Exception e.
Proof.
  apply (upload_aab_failure_deletes_edit Deploy.play "app.aab" "production"
           (Deploy.start Deploy.play ["commit"]) [("id", JStr "e1")] ["commit"] (JStr "e1")
           (Deploy.Exception (RequestException "commit"))); reflexivity.
Defined.

(** X20, on an API that refuses the insert. *)
Lemma upload_aab_no_edit_no_delete_witness :
  fst (Deploy.upload_aab Deploy.play "app.aab" "internal" (Deploy.start Deploy.play ["insert"]))
    = Deploy.Raised (Deploy.Exception (RequestException "insert")) /\
  Deploy.calls (snd (Deploy.upload_aab Deploy.play "app.aab" "internal"
                       (Deploy.start Deploy.play ["insert"])))
    = [] ++ [Deploy.EditsInsert Deploy.PACKAGE_NAME].
Proof.
  apply (proj1 (upload_aab_no_edit_no_delete Deploy.play "app.aab" "internal"
                  (Deploy.start Deploy.play ["insert"]))
           (RequestException "insert") ["insert"]).
  reflexivity.
Defined.

(** X22, on an API that refuses the update of the track and the delete:
    the error of the update is lost. *)
Lemma failed_delete_hides_first_error_witness :
  fst (Deploy.try_except Deploy.play
         (Deploy.upload_steps Deploy.play (JStr "e1") "app.aab" "internal")
         (Deploy.discard_edit Deploy.play (JStr "e1"))
         (Deploy.start Deploy.play ["update"; "delete"]))
    = Deploy.Raised (Deploy.Exception (RequestException "delete")).
Proof.
  apply (proj2 (failed_delete_hides_first_error Deploy.play (JStr "e1") "app.aab" "internal"
                  (Deploy.start Deploy.play ["update"; "delete"])
                  (RequestException "update")
                  (snd (Deploy.upload_steps Deploy.play (JStr "e1") "app.aab" "internal"
                          (Deploy.start Deploy.play ["update"; "delete"])))
                  eq_refl)
           (RequestException "delete") ["update"; "delete"]).
  reflexivity.
Defined.

(** X23, with a key file that does not exist. *)
Lemma main_checks_before_calling_witness :
  let a := {| Deploy.aab := "app.aab"; Deploy.arg_track := "internal";
              Deploy.key_file := Some "missing" |} in
  fst (Deploy.main Deploy.play a (Deploy.start Deploy.play []))
    = Deploy.Raised (Deploy.SystemExit 1) /\
  Deploy.calls (snd (Deploy.main Deploy.play a (Deploy.start Deploy.play []))) = [] /\
  Deploy.printed (snd (Deploy.main Deploy.play a (Deploy.start Deploy.play [])))
    = [] ++ [Deploy.KeyFileNotFound "missing"].
Proof.
  intros a.
  apply (proj1 (proj2 (main_checks_before_calling Deploy.play a (Deploy.start Deploy.play [])))
           "missing"); [reflexivity | discriminate | reflexivity].
Defined.

(** X24, with a key file and a bundle that exist. *)
Lemma main_calls_need_valid_inputs_witness :
  let a := {| Deploy.aab := "app.aab"; Deploy.arg_track := "internal";
              Deploy.key_file := Some "key.json" |} in
  exists key,
    Deploy.key_file a = Some key /\ key <> "" /\
    Deploy.path_exists Deploy.play key = true /\
    Deploy.path_exists Deploy.play (Deploy.aab a) = true /\
    Deploy.load_service Deploy.play key = None.
Proof.
  intros a.
  apply (main_calls_need_valid_inputs Deploy.play a (Deploy.start Deploy.play [])).
  discriminate.
Defined.
